(** * carton.cart: a session-backed shopping cart

    A shallow embedding of [carton/cart.py] (classes [CartItem] and [Cart])
    and the properties of its item bookkeeping and serialization.

    Python objects are mutated in place and exceptions leave the mutations
    made before them; the embedding therefore threads the cart (with the
    session it holds) through every method and returns the outcome next to
    the final state. *)

From Stdlib Require Import ZArith Ascii String.
From stdpp Require Import base option list gmap fin_maps strings pretty.

Local Open Scope string_scope.
Local Open Scope Z_scope.

(** ** Python values and exceptions *)

(** Ids and product-type tags: the code only formats them with [str] and
    compares them with [==]. *)
Inductive pyval :=
| VInt (z : Z)
| VStr (s : string).

Global Instance pyval_eq_dec : EqDecision pyval.
Proof. solve_decision. Defined.

(** [str(v)] *)
Definition str (v : pyval) : string :=
  match v with
  | VInt z => pretty z
  | VStr s => s
  end.

(** ["{}-{}".format(a, b)] *)
Definition format_key (a b : pyval) : string := str a +:+ "-" +:+ str b.

(** ["{}.{}".format(a, b)] *)
Definition format_dotted (a b : string) : string := a +:+ "." +:+ b.

Inductive exn :=
| ValueError (msg : string)
| KeyError (key : pyval)
| NameError (name : string)
| InvalidOperation
| CollaboratorError (descr : string).

Inductive outcome (A : Type) :=
| Return (a : A)
| Raise (e : exn).
Arguments Return {A} a.
Arguments Raise {A} e.

(** [s.rsplit(sep, 1)] unpacked into two names: the split at the last
    separator, or nothing when the separator does not occur (the unpacking
    then raises [ValueError]). *)
Fixpoint rsplit1 (sep : ascii) (s : string) : option (string * string) :=
  match s with
  | EmptyString => None
  | String c t =>
      match rsplit1 sep t with
      | Some (l, r) => Some (String c l, r)
      | None => if Ascii.eqb c sep then Some (EmptyString, t) else None
      end
  end.

(** A product object, with the attributes the cart reads from it. The code is
    duck-typed: [add] and [set_quantity] read [product_type],
    [product_source_id], [get_module_for_product_type()] and [pk] from their
    argument, the objects returned by the product lookup are read through
    [id], [title], [name] and [__class__]. *)
Record Product := {
  prod_id : pyval;
  prod_pk : pyval;
  prod_name : string;
  prod_title : string;
  prod_class_module : string;
  prod_class_name : string;
  prod_product_type : pyval;
  prod_product_source_id : pyval;
  prod_module_for_product_type : string
}.

(** One value of the serialized cart, as built by [CartItem.to_dict]. *)
Record ItemDict := {
  d_name : string;
  d_product_module : string;
  d_product_type : pyval;
  d_product_source_id : pyval;
  d_quantity : Z;
  d_price : string
}.

(** The session: a key-value store of serialized carts with its
    [modified] flag. *)
Record Session := {
  data : gmap string (gmap string ItemDict);
  modified : bool
}.

Global Instance outcome_ret : MRet outcome := λ A a, Return a.
Global Instance outcome_bind : MBind outcome := λ A B f m,
  match m with
  | Return a => f a
  | Raise e => Raise e
  end.

(** A Python [for] loop whose body updates an accumulator and may raise. *)
Fixpoint for_each {A S : Type} (body : S → A → outcome S) (l : list A) (s : S)
  : outcome S :=
  match l with
  | [] => Return s
  | x :: l' => s' ← body s x; for_each body l' s'
  end.

(** [a, b = xs] for the result of [rsplit] *)
Definition unpack2 (xs : option (string * string)) : outcome (string * string) :=
  match xs with
  | Some p => Return p
  | None => Raise (ValueError "need more than 1 value to unpack")
  end.

(** [sum(l)] *)
Definition sum (l : list Z) : Z := fold_left Z.add l 0.

(** ** Collaborators outside [cart.py] *)

(** What a call of the product lookup does: it returns an object that
    counts as true, or one that counts as false ([None]), or it raises.
    The [get] of a Django manager raises [DoesNotExist] for an unknown id;
    the false object is what the [if item:] after the call provides for. *)
Inductive lookup_result :=
| Found (p : Product)
| NotFound
| LookupRaises (descr : string).

Class Collaborators := {
  (** Python's [decimal.Decimal]: the constructor from a string (nothing when
      it raises [InvalidOperation]) and [str]. *)
  Decimal : Type;
  Decimal_of_str : string → option Decimal;
  Decimal_str : Decimal → string;
  (** [settings.PRODUCT_TYPE.Resource], [carton_settings.CART_SESSION_KEY] *)
  Resource : pyval;
  CART_SESSION_KEY : string;
  (** [==] between product objects, as their classes define it. *)
  py_eq : Product → Product → bool;
  (** [getattr(import_module(module), package).objects.get(pk=pk)] *)
  objects_get : string → string → pyval → lookup_result
}.

Section Carton.
Context `{Collaborators}.

(** A price as the callers pass it: a [Decimal], or any other object, taken
    by the text [str] gives for it. *)
Inductive pyprice :=
| PDecimal (d : Decimal)
| PText (s : string).

Definition str_price (p : pyprice) : string :=
  match p with
  | PDecimal d => Decimal_str d
  | PText s => s
  end.

(** [Decimal(s)] *)
Definition Decimal_new (s : string) : outcome Decimal :=
  match Decimal_of_str s with
  | Some d => Return d
  | None => Raise InvalidOperation
  end.

(** The product lookup, written out in [Cart.__init__] and in [Cart.add]:
    [module, package = dotted.rsplit('.', 1)], then
    [getattr(import_module(module), package).objects.get(pk=pk)]. The
    result is what the [if item:] that follows tests. *)
Definition get_instance (dotted : string) (pk : pyval) : outcome (option Product) :=
  '(module, package) ← unpack2 (rsplit1 "." dotted);
  match objects_get module package pk with
  | Found item => Return (Some item)
  | NotFound => Return None
  | LookupRaises descr => Raise (CollaboratorError descr)
  end.

(** ** CartItem *)

(** Quantities are Python ints, on which [int] is the identity. *)
Record CartItem := {
  name : string;
  product : Product;
  product_type : pyval;
  quantity : Z;
  price : Decimal
}.

Definition CartItem_init (product : Product) (product_type : pyval)
    (quantity : Z) (price : pyprice) : outcome CartItem :=
  let name := if decide (product_type = Resource)
              then prod_title product else prod_name product in
  price ← Decimal_new (str_price price);
  mret {| name := name; product := product; product_type := product_type;
          quantity := quantity; price := price |}.

(** The [else] branch of the name reads [product], which is not bound in
    [to_dict]. *)
Definition to_dict (self : CartItem) : outcome ItemDict :=
  name ← (if decide (product_type self = Resource)
          then Return (prod_title (product self))
          else Raise (NameError "product"));
  mret {| d_name := name;
          d_product_module :=
            format_dotted (prod_class_module (product self))
                          (prod_class_name (product self));
          d_product_type := product_type self;
          d_product_source_id := prod_id (product self);
          d_quantity := quantity self;
          d_price := Decimal_str (price self) |}.

Definition unique_id (self : CartItem) : string :=
  format_key (product_type self) (prod_id (product self)).

(** The item after [item.quantity = q] *)
Definition with_quantity (self : CartItem) (q : Z) : CartItem :=
  {| name := name self; product := product self;
     product_type := product_type self; quantity := q; price := price self |}.

(** ** Cart *)

Record Cart := {
  _items_dict : gmap string CartItem;
  session : Session;
  session_key : string
}.

(** [session_key or carton_settings.CART_SESSION_KEY] *)
Definition session_key_or_default (session_key : option string) : string :=
  match session_key with
  | Some (String c k) => String c k
  | Some EmptyString | None => CART_SESSION_KEY
  end.

(** The body of the constructor's loop. *)
Definition rebuild_entry (items : gmap string CartItem) (kv : string * ItemDict)
  : outcome (gmap string CartItem) :=
  let '(k, v) := kv in
  item ← get_instance (d_product_module v) (d_product_source_id v);
  match item with
  | Some item =>
      price ← Decimal_new (d_price v);
      ci ← CartItem_init item (d_product_type v) (d_quantity v) (PDecimal price);
      mret (<[k := ci]> items)
  | None => mret items
  end.

(** [Cart.__init__]. The entries of a dict are visited in the order of
    [map_to_list]; Python leaves the order unspecified. *)
Definition Cart_init (session : Session) (session_key : option string)
  : outcome Cart :=
  let key := session_key_or_default session_key in
  items ← match data session !! key with
          | Some cart_representation =>
              for_each rebuild_entry (map_to_list cart_representation) ∅
          | None => mret ∅
          end;
  mret {| _items_dict := items; session := session; session_key := key |}.

Definition items (self : Cart) : list CartItem :=
  (map_to_list (_items_dict self)).*2.

Definition products (self : Cart) : list Product :=
  product <$> items self.

(** [product in self.products], also [Cart.__contains__] *)
Definition contains (self : Cart) (p : Product) : bool :=
  existsb (py_eq p) (products self).

(** The body of the loop of [cart_serializable]. *)
Definition serialize_item (cart_representation : gmap string ItemDict)
    (item : CartItem) : outcome (gmap string ItemDict) :=
  let product_source_id := prod_id (product item) in
  let product_type := product_type item in
  d ← to_dict item;
  mret (<[format_key product_type product_source_id := d]> cart_representation).

Definition cart_serializable (self : Cart) : outcome (gmap string ItemDict) :=
  for_each serialize_item (items self) ∅.

Definition count (self : Cart) : Z := sum (quantity <$> items self).

Definition unique_count (self : Cart) : nat := size (_items_dict self).

Definition is_empty (self : Cart) : bool := bool_decide (unique_count self = 0%nat).

(** *** Methods that mutate the cart

    A method takes the cart, with the session inside, and gives its outcome
    with the cart as the method left it. *)
Definition M (A : Type) : Type := Cart → outcome A * Cart.

Global Instance M_ret : MRet M := λ A a self, (Return a, self).
Global Instance M_bind : MBind M := λ A B f m self,
  match m self with
  | (Return a, self') => f a self'
  | (Raise e, self') => (Raise e, self')
  end.

Definition raise {A : Type} (e : exn) : M A := λ self, (Raise e, self).
Definition lift {A : Type} (o : outcome A) : M A := λ self, (o, self).
Definition get_self : M Cart := λ self, (Return self, self).

(** [self._items_dict[key]] *)
Definition getitem (key : string) : M CartItem := λ self,
  match _items_dict self !! key with
  | Some item => (Return item, self)
  | None => (Raise (KeyError (VStr key)), self)
  end.

Definition set_items_dict (d : gmap string CartItem) : M unit := λ self,
  (Return tt, {| _items_dict := d; session := session self;
                 session_key := session_key self |}).

(** [self._items_dict[key] = item] *)
Definition setitem (key : string) (item : CartItem) : M unit := λ self,
  set_items_dict (<[key := item]> (_items_dict self)) self.

(** [del self._items_dict[key]]; the keys of the dict are strings, so that
    a key of another type is never found. *)
Definition delitem (key : pyval) : M unit := λ self,
  match key with
  | VStr k =>
      match _items_dict self !! k with
      | Some _ => set_items_dict (delete k (_items_dict self)) self
      | None => (Raise (KeyError key), self)
      end
  | VInt _ => (Raise (KeyError key), self)
  end.

Definition update_session : M unit := λ self,
  match cart_serializable self with
  | Return cart_representation =>
      (Return tt,
       {| _items_dict := _items_dict self;
          session := {| data := <[session_key self := cart_representation]>
                                  (data (session self));
                        modified := true |};
          session_key := session_key self |})
  | Raise e => (Raise e, self)
  end.

(** [add]. The argument [quantity] stands for [int(quantity)], as in
    [set_quantity]: the callers pass ints. The price is [None] when the
    caller gives none. *)
Definition add (product : Product) (price : option pyprice) (quantity : Z)
  : M unit :=
  if bool_decide (quantity < 1)
  then raise (ValueError "Quantity must be at least 1 when adding to cart")
  else
    self ← get_self;
    let key := format_key (prod_product_type product)
                          (prod_product_source_id product) in
    (if contains self product
     then item ← getitem key;
          setitem key (with_quantity item (Carton.quantity item + quantity))
     else
       match price with
       | None => raise (ValueError "Missing price when adding to cart")
       | Some price =>
           item ← lift (get_instance (prod_module_for_product_type product)
                                     (prod_product_source_id product));
           match item with
           | Some item =>
               ci ← lift (CartItem_init item (prod_product_type product)
                                        quantity price);
               setitem key ci
           | None => mret tt
           end
       end);;
    update_session.

Definition remove (product : Product) (product_type : pyval) : M unit :=
  self ← get_self;
  if contains self product
  then delitem (VStr (format_key product_type (prod_id product)));;
       update_session
  else mret tt.

Definition remove_single (product : Product) (product_type : pyval) : M unit :=
  self ← get_self;
  let key := format_key product_type (prod_id product) in
  if contains self product
  then item ← getitem key;
       (if bool_decide (quantity item ≤ 1)
        then delitem (VStr key)
        else item ← getitem key;
             setitem key (with_quantity item (quantity item - 1)));;
       update_session
  else mret tt.

Definition clear : M unit :=
  set_items_dict ∅;;
  update_session.

(** [set_quantity]: the quantity is stored under the key of the product's
    type and source id, the deletion is asked for [product.pk]. *)
Definition set_quantity (product : Product) (quantity : Z) : M unit :=
  if bool_decide (quantity < 0)
  then raise (ValueError "Quantity must be positive when updating cart")
  else
    self ← get_self;
    let key := format_key (prod_product_type product)
                          (prod_product_source_id product) in
    if contains self product
    then item ← getitem key;
         setitem key (with_quantity item quantity);;
         item ← getitem key;
         (if bool_decide (Carton.quantity item < 1)
          then delitem (prod_pk product)
          else mret tt);;
         update_session
    else mret tt.

(** *** The properties the specification states of a cart *)

(** Every key is the [unique_id] of its item, and no stored quantity is
    below 1. (Keys of a dict are distinct by construction.) *)
Definition cart_invariant (self : Cart) : Prop :=
  ∀ k item, _items_dict self !! k = Some item →
            k = unique_id item ∧ 1 ≤ quantity item.

(** The session holds, under the cart's key, the serialized form of the
    current items, and it is flagged as modified. *)
Definition session_in_sync (self : Cart) : Prop :=
  ∃ cart_representation,
    cart_serializable self = Return cart_representation
    ∧ data (session self) !! session_key self = Some cart_representation
    ∧ modified (session self) = true.

(** The public mutating operations. *)
Inductive mutation :=
| Add (product : Product) (price : option pyprice) (quantity : Z)
| Remove (product : Product) (product_type : pyval)
| RemoveSingle (product : Product) (product_type : pyval)
| SetQuantity (product : Product) (quantity : Z)
| Clear.

Definition run (m : mutation) : M unit :=
  match m with
  | Add p price q => add p price q
  | Remove p t => remove p t
  | RemoveSingle p t => remove_single p t
  | SetQuantity p q => set_quantity p q
  | Clear => clear
  end.

(** The product a mutation names is in the cart ([add] and [clear] need
    none). *)
Definition target_present (m : mutation) (self : Cart) : bool :=
  match m with
  | Add _ _ _ | Clear => true
  | Remove p _ | RemoveSingle p _ | SetQuantity p _ => contains self p
  end.

(** [count] of a cart whose dict is [m] *)
Definition count_of (m : gmap string CartItem) : Z :=
  sum (quantity <$> (map_to_list m).*2).

(** A stored entry whose product the lookup reports as gone. *)
Definition entry_missing (v : ItemDict) : Prop :=
  get_instance (d_product_module v) (d_product_source_id v) = Return None.

(** A stored entry whose product the lookup finds, with a price text that
    [Decimal] reads, as it reads the text of the value it then has. *)
Definition entry_resolves (v : ItemDict) (found : Product) (d : Decimal) : Prop :=
  get_instance (d_product_module v) (d_product_source_id v) = Return (Some found)
  ∧ Decimal_of_str (d_price v) = Some d
  ∧ Decimal_of_str (Decimal_str d) = Some d.

(** The item the constructor makes of such an entry. *)
Definition rebuilt (v : ItemDict) (found : Product) (d : Decimal) : CartItem :=
  {| name := if decide (d_product_type v = Resource)
             then prod_title found else prod_name found;
     product := found;
     product_type := d_product_type v;
     quantity := d_quantity v;
     price := d |}.

(** What [to_dict] gives for an item of the [Resource] type. *)
Definition serialized (item : CartItem) : ItemDict :=
  {| d_name := prod_title (product item);
     d_product_module :=
       format_dotted (prod_class_module (product item))
                     (prod_class_name (product item));
     d_product_type := product_type item;
     d_product_source_id := prod_id (product item);
     d_quantity := quantity item;
     d_price := Decimal_str (price item) |}.

(** The two checks on the caller's arguments: the quantity bound of [add]
    and of [set_quantity], and the price [add] requires for a product that
    is not in the cart. *)
Definition fails_validation (m : mutation) (self : Cart) : bool :=
  match m with
  | Add p price q =>
      bool_decide (q < 1)
      || (bool_decide (price = None) && negb (contains self p))
  | SetQuantity _ q => bool_decide (q < 0)
  | Remove _ _ | RemoveSingle _ _ | Clear => false
  end.

(** The call raises. *)
Definition raises (m : mutation) (self : Cart) : Prop :=
  ∃ e, (run m self).1 = Raise e.

(** [Cart.items_serializable]: [self.cart_serializable.items()], the list
    of the pairs of the serialized form. *)
Definition items_serializable (self : Cart)
  : outcome (list (string * ItemDict)) :=
  cart_representation ← cart_serializable self;
  mret (map_to_list cart_representation).

(** The characters of a string. *)
Fixpoint chars (s : string) : list ascii :=
  match s with
  | EmptyString => []
  | String c t => c :: chars t
  end.

End Carton.

(** ** Totals *)

(** The arithmetic of [Decimal] the totals use: [d * n] and [n + d] for an
    int [n], and [d + d']. Each can raise under the context of the
    [decimal] module ([InvalidOperation] for a signalling NaN or for
    infinity times 0, [Overflow] beyond the largest exponent). *)
Class DecimalArithmetic `{Collaborators} := {
  Decimal_mul_int : Decimal → Z → outcome Decimal;
  Decimal_radd_int : Z → Decimal → outcome Decimal;
  Decimal_add : Decimal → Decimal → outcome Decimal
}.

(** A list comprehension whose expression may raise. *)
Fixpoint comprehension {A B : Type} (f : A → outcome B) (l : list A)
  : outcome (list B) :=
  match l with
  | [] => Return []
  | x :: l' => y ← f x; ys ← comprehension f l'; mret (y :: ys)
  end.

Section Totals.
Context `{DecimalArithmetic}.

(** A number [sum] can return: the int it starts from, or a [Decimal]. *)
Inductive pynum :=
| NInt (z : Z)
| NDecimal (d : Decimal).

(** [acc + x], for the accumulator of [sum] and a [Decimal] *)
Definition pynum_add (acc : pynum) (x : Decimal) : outcome pynum :=
  match acc with
  | NInt z => d ← Decimal_radd_int z x; mret (NDecimal d)
  | NDecimal d => d' ← Decimal_add d x; mret (NDecimal d')
  end.

(** [CartItem.subtotal] *)
Definition subtotal (self : CartItem) : outcome Decimal :=
  Decimal_mul_int (price self) (quantity self).

(** [Cart.total]: the subtotals are computed first, then [sum] adds them
    from the int 0, in the order of the list. *)
Definition total (self : Cart) : outcome pynum :=
  subtotals ← comprehension subtotal (items self);
  for_each pynum_add subtotals (NInt 0).

End Totals.

(** ** A small shop, for concrete runs *)

Definition demo_is_decimal_char (c : ascii) : bool :=
  (Ascii.eqb c "." || ((48 <=? N_of_ascii c)%N && (N_of_ascii c <=? 57)%N)).

(** Prices kept as their text; only plain literals are accepted. *)
Definition demo_Decimal_of_str (s : string) : option string :=
  match s with
  | EmptyString => None
  | _ => if forallb demo_is_decimal_char (list_ascii_of_string s)
         then Some s else None
  end.

Definition demo_Resource : pyval := VInt 1.
Definition demo_Stationery : pyval := VInt 2.

Definition demo_book : Product :=
  {| prod_id := VInt 7; prod_pk := VInt 7;
     prod_name := "book"; prod_title := "A Book";
     prod_class_module := "shop.models"; prod_class_name := "Book";
     prod_product_type := demo_Resource; prod_product_source_id := VInt 7;
     prod_module_for_product_type := "shop.models.Book" |}.

Definition demo_pen : Product :=
  {| prod_id := VInt 3; prod_pk := VInt 3;
     prod_name := "pen"; prod_title := "A Pen";
     prod_class_module := "shop.models"; prod_class_name := "Pen";
     prod_product_type := demo_Stationery; prod_product_source_id := VInt 3;
     prod_module_for_product_type := "shop.models.Pen" |}.

(** Equality of model instances: same class and same primary key. *)
Definition demo_py_eq (a b : Product) : bool :=
  bool_decide (prod_class_module a = prod_class_module b
               ∧ prod_class_name a = prod_class_name b
               ∧ prod_pk a = prod_pk b).

(** The catalogue holds one book and one pen; as with the [get] of a Django
    manager, an unknown id raises [DoesNotExist]; an unknown class or
    module raises too. *)
Definition demo_objects_get (module package : string) (pk : pyval)
  : lookup_result :=
  if bool_decide (module = "shop.models") then
    if bool_decide (package = "Book") then
      if bool_decide (pk = VInt 7) then Found demo_book
      else LookupRaises "DoesNotExist"
    else if bool_decide (package = "Pen") then
      if bool_decide (pk = VInt 3) then Found demo_pen
      else LookupRaises "DoesNotExist"
    else LookupRaises "AttributeError"
  else LookupRaises "ImportError".

(** The same catalogue behind a manager whose [get] answers [None] for an
    unknown id in place of raising. *)
Definition lenient_objects_get (module package : string) (pk : pyval)
  : lookup_result :=
  match demo_objects_get module package pk with
  | LookupRaises "DoesNotExist" => NotFound
  | r => r
  end.

(** The object a caller passes to [add]: it names the book by its type and
    source id, and is of another class than the book itself. *)
Definition demo_wrapper : Product :=
  {| prod_id := VInt 1; prod_pk := VInt 1;
     prod_name := "book"; prod_title := "A Book";
     prod_class_module := "shop.models"; prod_class_name := "CartProduct";
     prod_product_type := demo_Resource; prod_product_source_id := VInt 7;
     prod_module_for_product_type := "shop.models.Book" |}.

Definition demo : Collaborators :=
  {| Decimal := string;
     Decimal_of_str := demo_Decimal_of_str;
     Decimal_str := λ d, d;
     Resource := demo_Resource;
     CART_SESSION_KEY := "CART";
     py_eq := demo_py_eq;
     objects_get := demo_objects_get |}.

Definition lenient : Collaborators :=
  {| Decimal := string;
     Decimal_of_str := demo_Decimal_of_str;
     Decimal_str := λ d, d;
     Resource := demo_Resource;
     CART_SESSION_KEY := "CART";
     py_eq := demo_py_eq;
     objects_get := lenient_objects_get |}.

Definition demo_session : Session := {| data := ∅; modified := false |}.

Section Demo.
Local Existing Instance demo.

Definition demo_empty_cart : Cart :=
  {| _items_dict := ∅; session := demo_session; session_key := "CART" |}.

(** The cart after [add(book, price="9.99", quantity=2)]. *)
Definition demo_cart : Cart :=
  (add demo_book (Some (PText "9.99")) 2 demo_empty_cart).2.

(** The item of the book in a cart, at quantity [q]. *)
Definition demo_book_item (q : Z) : CartItem :=
  {| name := "A Book"; product := demo_book; product_type := demo_Resource;
     quantity := q; price := "9.99" |}.

(** The cart after [add(pen, price="1.50", quantity=1)] on the empty cart;
    the call itself raises. *)
Definition demo_pen_cart : Cart :=
  (add demo_pen (Some (PText "1.50")) 1 demo_empty_cart).2.

(** A stored cart: the book, and a book whose id is not in the catalogue
    any more. *)
Definition demo_stored_book : ItemDict :=
  {| d_name := "A Book"; d_product_module := "shop.models.Book";
     d_product_type := demo_Resource; d_product_source_id := VInt 7;
     d_quantity := 2; d_price := "9.99" |}.

Definition demo_stored_ghost : ItemDict :=
  {| d_name := "Gone"; d_product_module := "shop.models.Book";
     d_product_type := demo_Resource; d_product_source_id := VInt 99;
     d_quantity := 1; d_price := "5.00" |}.

Definition demo_representation : gmap string ItemDict :=
  <["1-7" := demo_stored_book]> (<["1-99" := demo_stored_ghost]> ∅).

Definition demo_store : Session :=
  {| data := <["CART" := demo_representation]> ∅; modified := false |}.

(** A stored cart with the book alone, and the cart the constructor makes
    of it. *)
Definition demo_book_store : Session :=
  {| data := <["CART" := <["1-7" := demo_stored_book]> ∅]> ∅;
     modified := false |}.

Definition demo_restored_cart : Cart :=
  {| _items_dict := {["1-7" := demo_book_item 2]};
     session := demo_book_store; session_key := "CART" |}.

(** A book that is not in the catalogue. *)
Definition demo_ghost : Product :=
  {| prod_id := VInt 99; prod_pk := VInt 99;
     prod_name := "ghost"; prod_title := "Gone";
     prod_class_module := "shop.models"; prod_class_name := "Book";
     prod_product_type := demo_Resource; prod_product_source_id := VInt 99;
     prod_module_for_product_type := "shop.models.Book" |}.

(** A stored cart with an entry of a module that cannot be imported. *)
Definition demo_stored_legacy : ItemDict :=
  {| d_name := "Old"; d_product_module := "legacy.models.Item";
     d_product_type := demo_Resource; d_product_source_id := VInt 1;
     d_quantity := 1; d_price := "2.00" |}.

Definition demo_legacy_store : Session :=
  {| data := <["CART" := {["1-1" := demo_stored_legacy]}]> ∅;
     modified := false |}.

End Demo.

Section LenientDemo.
Local Existing Instance lenient.

(** The empty cart of the shop with the lenient manager. *)
Definition lenient_empty_cart : Cart :=
  {| _items_dict := ∅; session := demo_session; session_key := "CART" |}.

End LenientDemo.

(** * Properties *)

Section Properties.
Context `{Collaborators}.
Implicit Types (self : Cart) (p : Product) (item : CartItem).

(** ** The session write *)

Lemma cart_serializable_items self self' :
  _items_dict self = _items_dict self' →
  cart_serializable self = cart_serializable self'.
Proof. unfold cart_serializable, items. by intros ->. Qed.

Lemma update_session_items self :
  _items_dict (update_session self).2 = _items_dict self.
Proof. unfold update_session. by destruct (cart_serializable self). Qed.

Lemma update_session_Return self self' :
  update_session self = (Return (), self') →
  session_in_sync self' ∧ _items_dict self' = _items_dict self.
Proof.
  unfold update_session.
  destruct (cart_serializable self) as [r|e] eqn:Hser; [|done].
  intros [= <-]. split; [|done].
  exists r. simpl. split_and!; [|by rewrite lookup_insert_eq|done].
  by rewrite <-Hser.
Qed.

Lemma update_session_Raise self self' e :
  update_session self = (Raise e, self') → self' = self.
Proof.
  unfold update_session. destruct (cart_serializable self); [done|].
  by intros [= _ <-].
Qed.

(** Unfolds the plumbing of a method down to the dict operations. *)
Ltac unfold_method :=
  unfold run, add, remove, remove_single, clear, set_quantity,
    mbind, M_bind, mret, M_ret, raise, lift, get_self,
    getitem, setitem, delitem, set_items_dict in *;
  simpl in *.

(** A method that returns normally after its last statement,
    [self.update_session()], leaves the session in sync. *)
Ltac by_update_session :=
  match goal with
  | Hup : update_session _ = (Return (), _) |- _ =>
      by apply update_session_Return in Hup as [? _]
  end.

(** C8: after every mutation that returns normally ([add], [clear], and
    [remove], [remove_single], [set_quantity] of a product in the cart), the
    session holds at [session_key] the serialized form of the current items
    and its [modified] flag is set. *)
Theorem mutation_writes_session (m : mutation) self self' :
  target_present m self = true →
  run m self = (Return (), self') →
  session_in_sync self'.
Proof.
  intros Hpresent Hrun.
  destruct m as [p pr q|p t|p t|p q|]; unfold_method.
  - repeat (case_match; simplify_eq/=); by_update_session.
  - rewrite Hpresent in Hrun.
    repeat (case_match; simplify_eq/=); by_update_session.
  - rewrite Hpresent in Hrun.
    repeat (case_match; simplify_eq/=); try by_update_session.
  - case_bool_decide; simplify_eq/=. rewrite Hpresent in Hrun.
    repeat (case_match; simplify_eq/=); by_update_session.
  - by_update_session.
Qed.

(** ** The checks on the caller's arguments *)

Lemma add_quantity_error p (pr : option pyprice) (q : Z) self :
  q < 1 →
  add p pr q self
  = (Raise (ValueError "Quantity must be at least 1 when adding to cart"), self).
Proof. intros Hq. unfold_method. by rewrite bool_decide_eq_true_2. Qed.

Lemma add_price_error p (q : Z) self :
  1 ≤ q → contains self p = false →
  add p None q self
  = (Raise (ValueError "Missing price when adding to cart"), self).
Proof.
  intros Hq Hin. unfold_method.
  rewrite bool_decide_eq_false_2 by lia. simpl. by rewrite Hin.
Qed.

Lemma set_quantity_error p (q : Z) self :
  q < 0 →
  set_quantity p q self
  = (Raise (ValueError "Quantity must be positive when updating cart"), self).
Proof. intros Hq. unfold_method. by rewrite bool_decide_eq_true_2. Qed.

(** C9: when [add] is called with a quantity below 1, or without a price
    for a product that is not in the cart, or [set_quantity] with a quantity
    below 0, the call raises [ValueError] and the items, the session's
    contents and its [modified] flag are as before the call. *)
Theorem validation_failure_is_atomic (m : mutation) self :
  fails_validation m self = true →
  ∃ msg, run m self = (Raise (ValueError msg), self).
Proof.
  destruct m as [p pr q|p t|p t|p q|]; simpl; try done.
  - intros [Hq%bool_decide_eq_true|[Hpr Hin]%andb_prop]%orb_prop.
    + eexists. by apply add_quantity_error.
    + apply bool_decide_eq_true in Hpr as ->.
      apply negb_true_iff in Hin.
      destruct (decide (q < 1)).
      * eexists. by apply add_quantity_error.
      * eexists. apply add_price_error; [lia|done].
  - intros Hq%bool_decide_eq_true. eexists. by apply set_quantity_error.
Qed.

(** C10: for a product that is not in the cart, [remove], [remove_single]
    and [set_quantity] leave the cart and its session, flag included, as
    they were. *)
Theorem absent_product_is_noop p (t : pyval) (q : Z) self :
  contains self p = false →
  remove p t self = (Return (), self)
  ∧ remove_single p t self = (Return (), self)
  ∧ (set_quantity p q self).2 = self.
Proof.
  intros Hin. unfold_method. rewrite !Hin. split_and!; try done.
  case_bool_decide; [done|]. by rewrite Hin.
Qed.

(** C5: for a product in the cart, [remove_single] looks at the stored
    quantity first: at 1 or below the entry is deleted, from 2 up the
    quantity goes down by one and the entry stays; an item with quantity 2
    is left with quantity 1. *)
Theorem remove_single_checks_before_decrement p (t : pyval) self item :
  contains self p = true →
  _items_dict self !! format_key t (prod_id p) = Some item →
  let key := format_key t (prod_id p) in
  let items' := _items_dict (remove_single p t self).2 in
  (quantity item ≤ 1 → items' = delete key (_items_dict self))
  ∧ (2 ≤ quantity item →
     items' = <[key := with_quantity item (quantity item - 1)]> (_items_dict self))
  ∧ (quantity item = 2 → quantity <$> items' !! key = Some 1).
Proof.
  intros Hin Hitem key items'.
  assert (items' = if bool_decide (quantity item ≤ 1)
                   then delete key (_items_dict self)
                   else <[key := with_quantity item (quantity item - 1)]>
                          (_items_dict self)) as Hitems.
  { subst items' key. unfold_method. rewrite Hin, Hitem.
    case_bool_decide; simpl; rewrite ?Hitem; simpl;
      by rewrite update_session_items. }
  rewrite Hitems. split_and!; intros Hq.
  - by rewrite bool_decide_eq_true_2.
  - by rewrite bool_decide_eq_false_2 by lia.
  - rewrite bool_decide_eq_false_2 by lia.
    rewrite lookup_insert_eq. simpl. by rewrite Hq.
Qed.

(** ** Counting *)

Lemma fold_left_add_from (l : list Z) (a : Z) :
  fold_left Z.add l a = a + sum l.
Proof.
  unfold sum. revert a. induction l as [|x l IH]; intros a; simpl; [lia|].
  rewrite (IH (a + x)), (IH (0 + x)). lia.
Qed.

Lemma sum_cons (x : Z) (l : list Z) : sum (x :: l) = x + sum l.
Proof. unfold sum at 1. simpl. by rewrite fold_left_add_from. Qed.

Lemma sum_Permutation (l1 l2 : list Z) : l1 ≡ₚ l2 → sum l1 = sum l2.
Proof.
  induction 1 as [|x l1 l2 _ IH|x y l|l1 l2 l3 _ IH1 _ IH2];
    rewrite ?sum_cons; try done; [by rewrite IH|lia|congruence].
Qed.

Lemma count_count_of self : count self = count_of (_items_dict self).
Proof. done. Qed.

Lemma count_of_insert_fresh (m : gmap string CartItem) k item :
  m !! k = None →
  count_of (<[k := item]> m) = quantity item + count_of m.
Proof.
  intros Hk. unfold count_of.
  rewrite <-sum_cons. apply sum_Permutation.
  by rewrite (map_to_list_insert m k item Hk).
Qed.

Lemma count_of_insert_present (m : gmap string CartItem) k item item' :
  m !! k = Some item →
  count_of (<[k := item']> m) = count_of m - quantity item + quantity item'.
Proof.
  intros Hk.
  rewrite <-(insert_delete_eq m k item') .
  rewrite <-(insert_id m k item Hk) at 2.
  rewrite <-(insert_delete_eq m k item).
  rewrite !count_of_insert_fresh by apply lookup_delete_eq. lia.
Qed.

(** X25: [add] with a quantity [q] of 1 or more raises [count] by [q] in
    two cases. When the membership test finds the product and an entry sits
    under its key, [unique_count] stays and the stored price stays,
    whatever price is passed. When the membership test does not find it,
    its key is free, the lookup finds the product and [Decimal] reads the
    price given, [unique_count] goes up by one. *)
Theorem add_counts p (pr : option pyprice) (q : Z) self :
  1 ≤ q →
  let key := format_key (prod_product_type p) (prod_product_source_id p) in
  let self' := (add p pr q self).2 in
  (∀ item,
     contains self p = true →
     _items_dict self !! key = Some item →
     count self' = count self + q
     ∧ unique_count self' = unique_count self
     ∧ _items_dict self' !! key = Some (with_quantity item (quantity item + q))
     ∧ price <$> _items_dict self' !! key = Some (price item))
  ∧ (∀ pr0 found d,
       contains self p = false →
       _items_dict self !! key = None →
       pr = Some pr0 →
       get_instance (prod_module_for_product_type p) (prod_product_source_id p)
         = Return (Some found) →
       Decimal_of_str (str_price pr0) = Some d →
       count self' = count self + q
       ∧ unique_count self' = S (unique_count self)
       ∧ price <$> _items_dict self' !! key = Some d).
Proof.
  intros Hq key self'. split.
  - intros item Hin Hitem.
    assert (_items_dict self'
            = <[key := with_quantity item (quantity item + q)]> (_items_dict self))
      as Hitems.
    { subst self' key. unfold_method.
      rewrite bool_decide_eq_false_2 by lia. simpl.
      rewrite Hin, Hitem. simpl. by rewrite update_session_items. }
    rewrite !count_count_of. unfold unique_count. rewrite Hitems.
    rewrite (count_of_insert_present _ _ item) by done.
    rewrite map_size_insert_Some by eauto.
    rewrite lookup_insert_eq. simpl. split_and!; try done; lia.
  - intros pr0 found d Hin Hitem -> Hfound Hd.
    set (ci := {| name := if decide (prod_product_type p = Resource)
                          then prod_title found else prod_name found;
                  product := found; product_type := prod_product_type p;
                  quantity := q; price := d |}).
    assert (_items_dict self' = <[key := ci]> (_items_dict self)) as Hitems.
    { subst self' key. unfold_method.
      rewrite bool_decide_eq_false_2 by lia. simpl.
      rewrite Hin, Hfound. simpl.
      unfold CartItem_init, Decimal_new. rewrite Hd. simpl.
      by rewrite update_session_items. }
    rewrite !count_count_of. unfold unique_count. rewrite Hitems.
    rewrite count_of_insert_fresh by done.
    rewrite map_size_insert_None by done.
    rewrite lookup_insert_eq. simpl. split_and!; try done; lia.
Qed.

(** ** Construction from the session *)

Lemma CartItem_init_Return found (t : pyval) (q : Z) (pr : pyprice) item :
  CartItem_init found t q pr = Return item →
  product item = found ∧ product_type item = t ∧ quantity item = q.
Proof.
  unfold CartItem_init, Decimal_new.
  destruct (Decimal_of_str (str_price pr)); by intros [= <-].
Qed.

Lemma rebuild_entry_missing (acc : gmap string CartItem) k v :
  entry_missing v → rebuild_entry acc (k, v) = Return acc.
Proof. unfold entry_missing, rebuild_entry. by intros ->. Qed.

Lemma rebuild_entry_resolves (acc : gmap string CartItem) k v found d :
  entry_resolves v found d →
  rebuild_entry acc (k, v) = Return (<[k := rebuilt v found d]> acc).
Proof.
  unfold entry_resolves, rebuild_entry. intros (-> & Hd & Hd'). simpl.
  unfold Decimal_new, CartItem_init. rewrite Hd. simpl.
  unfold Decimal_new. by rewrite Hd'.
Qed.

(** The loop of the constructor over entries with distinct keys: no
    exception, the entries found are stored under their keys and the
    missing ones leave the dict as it is. *)
Lemma for_each_rebuild_entry (l : list (string * ItemDict))
    (acc : gmap string CartItem) :
  NoDup l.*1 →
  (∀ k v, (k, v) ∈ l →
          entry_missing v ∨ ∃ found d, entry_resolves v found d) →
  ∃ items,
    for_each rebuild_entry l acc = Return items
    ∧ (∀ k, k ∉ l.*1 → items !! k = acc !! k)
    ∧ (∀ k v, (k, v) ∈ l → entry_missing v → items !! k = acc !! k)
    ∧ (∀ k v found d, (k, v) ∈ l → entry_resolves v found d →
                      items !! k = Some (rebuilt v found d)).
Proof.
  revert acc. induction l as [|[k0 v0] l IH]; intros acc Hnodup Hload.
  { exists acc. split_and!; [done|done|..]; by intros; set_solver. }
  apply NoDup_cons in Hnodup as [Hk0 Hnodup]. simpl in Hk0.
  assert (∀ k v, (k, v) ∈ l → k ≠ k0) as Hne.
  { intros k v Hin ->. apply Hk0. apply list_elem_of_fmap. by exists (k0, v). }
  assert (∃ acc0, rebuild_entry acc (k0, v0) = Return acc0
                  ∧ (∀ k, k ≠ k0 → acc0 !! k = acc !! k)
                  ∧ (entry_missing v0 → acc0 !! k0 = acc !! k0)
                  ∧ (∀ found d, entry_resolves v0 found d →
                                acc0 !! k0 = Some (rebuilt v0 found d)))
    as (acc0 & Hstep & Hother & Hmiss0 & Hres0).
  { destruct (Hload k0 v0) as [Hm|(found & d & Hr)];
      [by apply elem_of_cons; left|..].
    - exists acc. split_and!; [by apply rebuild_entry_missing|done|done|].
      intros found d (Hr & _). unfold entry_missing in Hm. congruence.
    - exists (<[k0 := rebuilt v0 found d]> acc).
      split_and!; [by apply rebuild_entry_resolves|..].
      + intros k Hk. by rewrite lookup_insert_ne.
      + intros Hm. destruct Hr as (Hr & _). unfold entry_missing in Hm.
        congruence.
      + intros found' d' (Hr' & Hd' & _). destruct Hr as (Hr & Hd & _).
        rewrite lookup_insert_eq. repeat f_equal; congruence. }
  destruct (IH acc0 Hnodup) as (items & Hloop & Hout & Hmiss & Hres).
  { intros k v Hin. apply (Hload k v). by apply elem_of_cons; right. }
  exists items. cbn [for_each]. rewrite Hstep. simpl.
  split_and!; [done|..].
  - intros k Hk. apply not_elem_of_cons in Hk as [Hk Hkl].
    rewrite Hout by done. by apply Hother.
  - intros k v [[= -> ->]|Hin]%elem_of_cons Hm.
    + rewrite Hout by done. by apply Hmiss0.
    + rewrite (Hmiss k v) by done. apply Hother. by eapply Hne.
  - intros k v found d [[= -> ->]|Hin]%elem_of_cons Hr.
    + rewrite Hout by done. by apply Hres0.
    + by apply Hres.
Qed.

(** What the guard [if item:] of the constructor provides for: when the
    lookup answers a false object for some stored entries, and finds the
    products of all the others, the constructor raises nothing: the cart it
    returns has no item under the keys of the former and the rebuilt item
    under every other key. *)
Theorem construct_skips_missing_products (session : Session)
    (session_key : option string) (cart_representation : gmap string ItemDict) :
  data session !! session_key_or_default session_key = Some cart_representation →
  (∀ k v, cart_representation !! k = Some v →
          entry_missing v ∨ ∃ found d, entry_resolves v found d) →
  ∃ cart,
    Cart_init session session_key = Return cart
    ∧ (∀ k v, cart_representation !! k = Some v → entry_missing v →
              _items_dict cart !! k = None)
    ∧ (∀ k v found d, cart_representation !! k = Some v →
                      entry_resolves v found d →
                      _items_dict cart !! k = Some (rebuilt v found d)).
Proof.
  intros Hstored Hentries.
  destruct (for_each_rebuild_entry (map_to_list cart_representation) ∅)
    as (items & Hloop & _ & Hmiss & Hres).
  { apply NoDup_fst_map_to_list. }
  { intros k v Hin%elem_of_map_to_list. by apply (Hentries k v). }
  eexists. unfold Cart_init. rewrite Hstored, Hloop. simpl.
  split_and!; [done|..].
  - intros k v Hk%elem_of_map_to_list Hm. simpl.
    by rewrite (Hmiss k v).
  - intros k v found d Hk%elem_of_map_to_list Hr. simpl. by apply Hres.
Qed.

(** A loop that returns keeps what every step that returns keeps. *)
Lemma for_each_Return_ind {A S : Type} (P : S → Prop)
    (body : S → A → outcome S) (l : list A) (s s' : S) :
  P s →
  (∀ s1 x s2, x ∈ l → P s1 → body s1 x = Return s2 → P s2) →
  for_each body l s = Return s' → P s'.
Proof.
  revert s. induction l as [|x l IH]; intros s Hs Hbody; cbn [for_each].
  { by intros [= <-]. }
  destruct (body s x) as [s1|e] eqn:Hx; [|done]. simpl.
  apply IH.
  - apply (Hbody s x s1); [by apply elem_of_cons; left|done..].
  - intros s2 y s3 Hy. apply Hbody. by apply elem_of_cons; right.
Qed.

(** A lookup that raises makes the constructor raise: the skip is for the
    lookup that returns a false object. *)
Lemma for_each_rebuild_entry_Raise (l : list (string * ItemDict))
    (acc : gmap string CartItem) k v e :
  (k, v) ∈ l →
  get_instance (d_product_module v) (d_product_source_id v) = Raise e →
  ∃ e', for_each rebuild_entry l acc = Raise e'.
Proof.
  intros Hin Hget. revert acc.
  induction l as [|x l IH]; intros acc; [by apply elem_of_nil in Hin|].
  cbn [for_each].
  destruct (rebuild_entry acc x) as [acc'|e'] eqn:Hx; simpl; [|by eauto].
  apply elem_of_cons in Hin as [<-|Hin]; [|by apply IH].
  unfold rebuild_entry in Hx. by rewrite Hget in Hx.
Qed.

(** X20: when the lookup raises for one stored entry, the constructor
    raises: no cart is made of the other entries. *)
Lemma construct_propagates_lookup_error (session : Session)
    (session_key : option string) (cart_representation : gmap string ItemDict)
    k v e :
  data session !! session_key_or_default session_key = Some cart_representation →
  cart_representation !! k = Some v →
  get_instance (d_product_module v) (d_product_source_id v) = Raise e →
  ∃ e', Cart_init session session_key = Raise e'.
Proof.
  intros Hstored Hk Hget. unfold Cart_init. rewrite Hstored.
  destruct (for_each_rebuild_entry_Raise
              (map_to_list cart_representation) ∅ k v e) as [e' ->];
    [by apply elem_of_map_to_list|done|by eauto].
Qed.

(** X21: constructed from entries stored under the key of their type and
    id, with quantities of 1 or more, the cart satisfies the invariant,
    when the lookup answers with an object of the id it was asked for. *)
Lemma construct_establishes_invariant (session : Session)
    (session_key : option string) cart :
  (∀ dotted pk found, get_instance dotted pk = Return (Some found) →
                      str (prod_id found) = str pk) →
  (∀ cart_representation k v,
     data session !! session_key_or_default session_key
       = Some cart_representation →
     cart_representation !! k = Some v →
     k = format_key (d_product_type v) (d_product_source_id v)
     ∧ 1 ≤ d_quantity v) →
  Cart_init session session_key = Return cart →
  cart_invariant cart.
Proof.
  intros Hid Hstored. unfold Cart_init, cart_invariant.
  destruct (data session !! session_key_or_default session_key)
    as [cart_representation|] eqn:Hdata; simpl.
  2: { intros [= <-] k item. simpl. by rewrite lookup_empty. }
  destruct (for_each rebuild_entry (map_to_list cart_representation) ∅)
    as [items'|e] eqn:Hloop; simpl; [|done].
  intros [= <-]. simpl.
  revert Hloop.
  apply (for_each_Return_ind
           (λ items : gmap string CartItem,
              ∀ k item, items !! k = Some item →
                        k = unique_id item ∧ 1 ≤ quantity item)).
  { intros k item. by rewrite lookup_empty. }
  intros acc [k v] acc' Hkv%elem_of_map_to_list Hacc Hstep.
  destruct (Hstored cart_representation k v eq_refl Hkv) as [Hkey Hq].
  unfold rebuild_entry in Hstep.
  destruct (get_instance (d_product_module v) (d_product_source_id v))
    as [[found|]|e] eqn:Hget; simpl in Hstep;
    [|by injection Hstep as <-|done].
  destruct (Decimal_new (d_price v)) as [d|e]; simpl in Hstep; [|done].
  destruct (CartItem_init found (d_product_type v) (d_quantity v) (PDecimal d))
    as [ci|e] eqn:Hci; simpl in Hstep; [|done].
  injection Hstep as <-.
  apply CartItem_init_Return in Hci as (Hfound & Ht & Hqty).
  intros k' item [[<- <-]|[_ Hk]]%lookup_insert_Some; [|by apply Hacc].
  split; [|lia].
  rewrite Hkey. unfold unique_id, format_key. rewrite Hfound, Ht.
  f_equal. f_equal. symmetry. by eapply Hid.
Qed.

(** ** Serialization *)

Lemma to_dict_Resource item :
  product_type item = Resource → to_dict item = Return (serialized item).
Proof. intros Ht. unfold to_dict. by rewrite decide_True. Qed.

Lemma to_dict_other item :
  product_type item ≠ Resource → to_dict item = Raise (NameError "product").
Proof. intros Ht. unfold to_dict. by rewrite decide_False. Qed.

Lemma serialize_item_Resource (acc : gmap string ItemDict) item :
  product_type item = Resource →
  serialize_item acc item = Return (<[unique_id item := serialized item]> acc).
Proof. intros Ht. unfold serialize_item. by rewrite to_dict_Resource. Qed.

Lemma serialize_item_other (acc : gmap string ItemDict) item :
  product_type item ≠ Resource →
  serialize_item acc item = Raise (NameError "product").
Proof. intros Ht. unfold serialize_item. by rewrite to_dict_other. Qed.

(** One item of another type than [Resource] is enough for the loop of
    [cart_serializable] to raise [NameError]. *)
Lemma for_each_serialize_item_other (l : list CartItem)
    (acc : gmap string ItemDict) item :
  item ∈ l → product_type item ≠ Resource →
  for_each serialize_item l acc = Raise (NameError "product").
Proof.
  intros Hin Ht. revert acc.
  induction l as [|x l IH]; intros acc; [by apply elem_of_nil in Hin|].
  cbn [for_each].
  destruct (decide (product_type x = Resource)) as [Hx|Hx].
  - rewrite serialize_item_Resource by done. simpl. apply IH.
    apply elem_of_cons in Hin as [->|Hin]; done.
  - by rewrite serialize_item_other.
Qed.

Lemma cart_serializable_other self k item :
  _items_dict self !! k = Some item → product_type item ≠ Resource →
  cart_serializable self = Raise (NameError "product").
Proof.
  intros Hk Ht. unfold cart_serializable.
  apply for_each_serialize_item_other with item; [|done].
  unfold items. apply list_elem_of_fmap. exists (k, item).
  split; [done|]. by apply elem_of_map_to_list.
Qed.

(** A cart of [Resource] items has a serialized form. *)
Lemma for_each_serialize_item_total (l : list CartItem)
    (acc : gmap string ItemDict) :
  (∀ item, item ∈ l → product_type item = Resource) →
  ∃ r, for_each serialize_item l acc = Return r.
Proof.
  revert acc. induction l as [|x l IH]; intros acc Hl; [by eexists|].
  cbn [for_each]. rewrite serialize_item_Resource.
  - simpl. apply IH. intros item Hin. apply Hl. by apply elem_of_cons; right.
  - apply Hl. by apply elem_of_cons; left.
Qed.

Lemma cart_serializable_total self :
  (∀ k item, _items_dict self !! k = Some item → product_type item = Resource) →
  ∃ r, cart_serializable self = Return r.
Proof.
  intros Hitems. apply for_each_serialize_item_total.
  intros item ([k item'] & -> & Hk%elem_of_map_to_list)%list_elem_of_fmap.
  by apply (Hitems k).
Qed.

(** With an item of another type in the cart, the session is never
    written. *)
Lemma update_session_other self k item :
  _items_dict self !! k = Some item → product_type item ≠ Resource →
  update_session self = (Raise (NameError "product"), self).
Proof.
  intros Hk Ht. unfold update_session.
  by rewrite (cart_serializable_other self k item).
Qed.

(** The loop of [cart_serializable] over [Resource] items that sit under
    their [unique_id]. *)
Lemma for_each_serialize_item (l : list (string * CartItem))
    (acc : gmap string ItemDict) :
  NoDup l.*1 →
  (∀ k item, (k, item) ∈ l →
             k = unique_id item ∧ product_type item = Resource) →
  ∃ r,
    for_each serialize_item l.*2 acc = Return r
    ∧ (∀ k, k ∉ l.*1 → r !! k = acc !! k)
    ∧ (∀ k item, (k, item) ∈ l → r !! k = Some (serialized item)).
Proof.
  revert acc. induction l as [|[k0 x] l IH]; intros acc Hnodup Hl.
  { exists acc. split_and!; [done|done|]. intros ?? Hin. by apply elem_of_nil in Hin. }
  apply NoDup_cons in Hnodup as [Hk0 Hnodup]. simpl in Hk0.
  destruct (Hl k0 x) as [Hkey Hx]; [by apply elem_of_cons; left|].
  destruct (IH (<[k0 := serialized x]> acc) Hnodup) as (r & Hloop & Hout & Hin).
  { intros k item Hk. apply (Hl k item). by apply elem_of_cons; right. }
  exists r. cbn [fmap list_fmap for_each]. simpl.
  rewrite serialize_item_Resource by done. simpl. rewrite <-Hkey.
  split_and!; [done|..].
  - intros k [Hk Hkl]%not_elem_of_cons.
    rewrite Hout by done. by rewrite lookup_insert_ne.
  - intros k item [[= -> ->]|Hk]%elem_of_cons.
    + rewrite Hout by done. by rewrite lookup_insert_eq.
    + by apply Hin.
Qed.

Lemma cart_serializable_Resource self :
  (∀ k item, _items_dict self !! k = Some item →
             k = unique_id item ∧ product_type item = Resource) →
  cart_serializable self = Return (serialized <$> _items_dict self).
Proof.
  intros Hitems.
  destruct (for_each_serialize_item (map_to_list (_items_dict self)) ∅)
    as (r & Hloop & Hout & Hin).
  { apply NoDup_fst_map_to_list. }
  { intros k item Hk%elem_of_map_to_list. by apply Hitems. }
  unfold cart_serializable, items. rewrite Hloop. f_equal.
  apply map_eq. intros k. rewrite lookup_fmap.
  destruct (_items_dict self !! k) as [item|] eqn:Hk; simpl.
  - apply Hin. by apply elem_of_map_to_list.
  - rewrite Hout; [done|].
    intros ([k' item] & -> & Hk')%list_elem_of_fmap.
    apply elem_of_map_to_list in Hk'. simpl in Hk. congruence.
Qed.

(** X23: round trip, for carts that serialize: when the items are of the
    [Resource] type and sit under their [unique_id], their products are
    still found and their prices survive [str], a cart constructed from the
    serialized form has the same keys, each with the quantity and the price
    it had. *)
Lemma serialize_then_construct self (store : Session) (key : option string) :
  (∀ k item, _items_dict self !! k = Some item →
             k = unique_id item ∧ product_type item = Resource) →
  (∀ k item, _items_dict self !! k = Some item →
             (∃ found, get_instance (d_product_module (serialized item))
                                    (prod_id (product item))
                       = Return (Some found))
             ∧ Decimal_of_str (Decimal_str (price item)) = Some (price item)) →
  ∃ r,
    cart_serializable self = Return r
    ∧ (data store !! session_key_or_default key = Some r →
       ∃ cart,
         Cart_init store key = Return cart
         ∧ ∀ k, quantity <$> _items_dict cart !! k
                = quantity <$> _items_dict self !! k
                ∧ price <$> _items_dict cart !! k
                  = price <$> _items_dict self !! k).
Proof.
  intros Hitems Hlive.
  set (r := serialized <$> _items_dict self).
  assert (∀ k item, _items_dict self !! k = Some item →
                    ∃ found, entry_resolves (serialized item) found (price item))
    as Hresolves.
  { intros k item Hitem.
    destruct (Hlive k item Hitem) as ([found Hfound] & Hprice).
    by exists found. }
  destruct (for_each_rebuild_entry (map_to_list r) ∅)
    as (items' & Hloop & Hout & _ & Hres).
  { apply NoDup_fst_map_to_list. }
  { intros k v Hk%elem_of_map_to_list. right.
    subst r. rewrite lookup_fmap in Hk.
    destruct (_items_dict self !! k) as [item|] eqn:Hitem; simplify_eq/=.
    destruct (Hresolves k item Hitem) as [found Hfound]. eauto. }
  exists r. split; [by apply cart_serializable_Resource|].
  intros Hstored. eexists. unfold Cart_init. rewrite Hstored, Hloop. simpl.
  split; [done|]. intros k. simpl.
  destruct (_items_dict self !! k) as [item|] eqn:Hitem; simpl.
  - destruct (Hresolves k item Hitem) as [found Hfound].
    rewrite (Hres k (serialized item) found (price item)); [done| |done].
    apply elem_of_map_to_list. subst r. by rewrite lookup_fmap, Hitem.
  - rewrite Hout; [done|].
    intros ([k' v] & Hkk' & Hk')%list_elem_of_fmap. simpl in Hkk'. subst k'.
    apply elem_of_map_to_list in Hk'. subst r.
    rewrite lookup_fmap in Hk'. by rewrite Hitem in Hk'.
Qed.

(** ** Which exceptions a call can raise *)

(** The only exception of [update_session] is the [NameError] of
    [to_dict]. *)
Lemma for_each_serialize_item_Raise (l : list CartItem)
    (acc : gmap string ItemDict) e :
  for_each serialize_item l acc = Raise e → e = NameError "product".
Proof.
  revert acc. induction l as [|x l IH]; intros acc; [done|].
  cbn [for_each].
  destruct (decide (product_type x = Resource)) as [Hx|Hx].
  - rewrite serialize_item_Resource by done. simpl. apply IH.
  - rewrite serialize_item_other by done. by intros [= <-].
Qed.

Lemma update_session_Raise_NameError self e :
  (update_session self).1 = Raise e → e = NameError "product".
Proof.
  unfold update_session.
  destruct (cart_serializable self) as [r|e'] eqn:Hser; [done|].
  intros [= <-]. by eapply for_each_serialize_item_Raise.
Qed.

Lemma get_instance_Raise (dotted : string) (pk : pyval) e :
  get_instance dotted pk = Raise e →
  e = ValueError "need more than 1 value to unpack"
  ∨ ∃ descr, e = CollaboratorError descr.
Proof.
  unfold get_instance, unpack2.
  destruct (rsplit1 "." dotted) as [[module package]|]; simpl.
  - destruct (objects_get module package pk); intros [= <-]; eauto.
  - intros [= <-]. by left.
Qed.

Lemma CartItem_init_Raise found (t : pyval) (q : Z) (pr : pyprice) e :
  CartItem_init found t q pr = Raise e → e = InvalidOperation.
Proof.
  unfold CartItem_init, Decimal_new.
  destruct (Decimal_of_str (str_price pr)); [done|]. by intros [= <-].
Qed.

(** Closes a goal where a hypothesis names the statement that raised and
    another exception than that statement can raise. *)
Ltac by_exception_source :=
  try done;
  match goal with
  | Hup : (update_session _).1 = Raise _ |- _ =>
      by apply update_session_Raise_NameError in Hup
  | Hget : get_instance _ _ = Raise _ |- _ =>
      by apply get_instance_Raise in Hget as [?|[? ?]]
  | Hinit : CartItem_init _ _ _ _ = Raise _ |- _ =>
      by apply CartItem_init_Raise in Hinit
  end.

(** C6, for the validation errors alone: [add] raises its quantity error
    exactly when the quantity is below 1, and its price error exactly when
    the quantity is 1 or more, no price is given and the product is not in
    the cart; [set_quantity] raises its quantity error exactly when the
    quantity is below 0. The outcome of the call is that exception: nothing
    catches it, and no other input raises one of the three. *)
Theorem validation_errors_iff p (pr : option pyprice) (q : Z) self :
  ((add p pr q self).1
     = Raise (ValueError "Quantity must be at least 1 when adding to cart")
   ↔ q < 1)
  ∧ ((add p pr q self).1
       = Raise (ValueError "Missing price when adding to cart")
     ↔ 1 ≤ q ∧ pr = None ∧ contains self p = false)
  ∧ ((set_quantity p q self).1
       = Raise (ValueError "Quantity must be positive when updating cart")
     ↔ q < 0).
Proof.
  split_and!; split.
  - intros Hr. destruct (decide (q < 1)) as [|Hq]; [done|]. exfalso.
    unfold_method. rewrite bool_decide_eq_false_2 in Hr by done. simpl in Hr.
    repeat (case_match; simplify_eq/=); by_exception_source.
  - intros Hq. by rewrite add_quantity_error.
  - intros Hr. destruct (decide (q < 1)) as [Hq|Hq].
    { by rewrite add_quantity_error in Hr. }
    split; [lia|].
    unfold_method. rewrite bool_decide_eq_false_2 in Hr by done. simpl in Hr.
    repeat (case_match; simplify_eq/=); by_exception_source.
  - intros (Hq & -> & Hin). by rewrite add_price_error.
  - intros Hr. destruct (decide (q < 0)) as [|Hq]; [done|]. exfalso.
    unfold_method. rewrite bool_decide_eq_false_2 in Hr by done. simpl in Hr.
    repeat (case_match; simplify_eq/=); by_exception_source.
  - intros Hq. by rewrite set_quantity_error.
Qed.

(** ** [set_quantity] *)

(** From 1 up, the quantity is stored as given and nothing is deleted. *)
Lemma set_quantity_positive p (q : Z) self item :
  1 ≤ q →
  contains self p = true →
  _items_dict self
    !! format_key (prod_product_type p) (prod_product_source_id p) = Some item →
  _items_dict (set_quantity p q self).2
  = <[format_key (prod_product_type p) (prod_product_source_id p)
      := with_quantity item q]> (_items_dict self).
Proof.
  intros Hq Hin Hitem. unfold_method.
  rewrite bool_decide_eq_false_2 by lia. simpl.
  rewrite Hin, Hitem. simpl. rewrite lookup_insert_eq. simpl.
  rewrite bool_decide_eq_false_2 by lia. simpl.
  by rewrite update_session_items.
Qed.

(** X24: at 0 the deletion goes by [product.pk]: when that is no key of the
    dict the call raises [KeyError], after the quantity 0 has been stored
    and before the session is written. *)
Lemma set_quantity_zero_KeyError p self item :
  contains self p = true →
  _items_dict self
    !! format_key (prod_product_type p) (prod_product_source_id p) = Some item →
  (∀ k, prod_pk p = VStr k →
        k ≠ format_key (prod_product_type p) (prod_product_source_id p)
        ∧ _items_dict self !! k = None) →
  set_quantity p 0 self
  = (Raise (KeyError (prod_pk p)),
     {| _items_dict :=
          <[format_key (prod_product_type p) (prod_product_source_id p)
            := with_quantity item 0]> (_items_dict self);
        session := session self;
        session_key := session_key self |}).
Proof.
  intros Hin Hitem Hpk. unfold_method.
  rewrite Hin, Hitem. simpl. rewrite lookup_insert_eq. simpl.
  destruct (prod_pk p) as [z|k] eqn:Hp; [done|].
  destruct (Hpk k eq_refl) as [Hne Hk].
  rewrite lookup_insert_ne by done. by rewrite Hk.
Qed.

(** ** The invariant *)

Lemma cart_invariant_items self self' :
  _items_dict self' = _items_dict self →
  cart_invariant self → cart_invariant self'.
Proof. unfold cart_invariant. by intros ->. Qed.

Lemma cart_invariant_delete self self' k :
  _items_dict self' = delete k (_items_dict self) →
  cart_invariant self → cart_invariant self'.
Proof.
  unfold cart_invariant. intros -> Hinv k' item [_ Hk']%lookup_delete_Some.
  by apply Hinv.
Qed.

Lemma cart_invariant_insert self self' k item :
  _items_dict self' = <[k := item]> (_items_dict self) →
  k = unique_id item → 1 ≤ quantity item →
  cart_invariant self → cart_invariant self'.
Proof.
  unfold cart_invariant.
  intros -> Hk Hq Hinv k' item' [[<- <-]|[_ Hk']]%lookup_insert_Some; [done|].
  by apply Hinv.
Qed.

(** X22: every mutation other than a [set_quantity] below 1 of a product in
    the cart keeps the invariant, provided the lookup answers with an
    object of the id it was asked for. *)
Lemma mutation_keeps_invariant (m : mutation) self :
  (∀ dotted pk found, get_instance dotted pk = Return (Some found) →
                      str (prod_id found) = str pk) →
  match m with
  | SetQuantity p q => 1 ≤ q ∨ contains self p = false
  | _ => True
  end →
  cart_invariant self → cart_invariant (run m self).2.
Proof.
  intros Hid Hm Hinv.
  destruct m as [p pr q|p t|p t|p q|]; unfold_method.
  all: repeat (case_match; simplify_eq/=); try done.
  all: try (eapply cart_invariant_items; [apply update_session_items|]);
    try done.
  all: try (eapply cart_invariant_delete; [reflexivity|done]).
  all: try destruct Hm as [Hq|Hm]; try done.
  all: try (rewrite lookup_insert_eq in *; simplify_eq/=).
  all: repeat case_bool_decide; try done; try lia.
  all: try (eapply cart_invariant_insert; [reflexivity|..]; try done).
  all: try match goal with
           | Hk : _items_dict _ !! _ = Some _ |- _ =>
               destruct (Hinv _ _ Hk) as [? ?]
           end; try done; simpl; try lia.
  all: match goal with
       | Hinit : CartItem_init _ _ _ _ = Return _ |- _ =>
           apply CartItem_init_Return in Hinit as (Hfound & Ht & Hqty)
       end.
  - unfold unique_id, format_key. rewrite Hfound, Ht. f_equal. f_equal.
    symmetry. by eapply Hid.
  - lia.
Qed.

(** ** What a mutation leaves alone *)

Lemma update_session_frame self :
  session_key (update_session self).2 = session_key self
  ∧ (∀ k, k ≠ session_key self →
          data (session (update_session self).2) !! k
          = data (session self) !! k)
  ∧ (modified (session self) = true →
     modified (session (update_session self).2) = true).
Proof.
  unfold update_session. destruct (cart_serializable self); simpl; [|done].
  split_and!; [done| |done]. intros k Hk. by rewrite lookup_insert_ne.
Qed.

(** X1: [clear] cannot fail, whatever the cart holds: it returns with an
    empty cart, whose count is 0, and the session holds the empty dict
    under the cart's key, flagged as modified. *)
Theorem clear_always_succeeds self :
  ∃ self',
    clear self = (Return (), self')
    ∧ _items_dict self' = ∅
    ∧ is_empty self' = true
    ∧ count self' = 0
    ∧ data (session self') !! session_key self' = Some ∅
    ∧ modified (session self') = true.
Proof.
  eexists. unfold_method. unfold update_session, cart_serializable, items.
  simpl. rewrite map_to_list_empty. simpl.
  split_and!; try done. simpl. by rewrite lookup_insert_eq.
Qed.

(** X2: a mutation, whether it returns or raises, keeps the cart's session
    key, leaves every other entry of the session as it was and never clears
    the [modified] flag. *)
Theorem mutation_session_frame (m : mutation) self :
  session_key (run m self).2 = session_key self
  ∧ (∀ k, k ≠ session_key self →
          data (session (run m self).2) !! k = data (session self) !! k)
  ∧ (modified (session self) = true →
     modified (session (run m self).2) = true).
Proof.
  destruct m as [p pr q|p t|p t|p q|]; unfold_method.
  all: repeat (case_match; simplify_eq/=); try done.
  all: match goal with
       | |- context [update_session ?c] =>
           destruct (update_session_frame c) as (Hkey & Hdata & Hflag);
           simpl in *; split_and!; [done|by apply Hdata|by apply Hflag]
       end.
Qed.

(** X3: a mutation that raises has not written the session: its contents
    and its flag are those from before the call. *)
Theorem raising_mutation_leaves_session (m : mutation) self self' e :
  run m self = (Raise e, self') →
  session self' = session self.
Proof.
  intros Hrun. destruct m as [p pr q|p t|p t|p q|]; unfold_method.
  all: repeat (case_match; simplify_eq/=); try done.
  all: match goal with
       | Hup : update_session _ = (Raise _, _) |- _ =>
           by apply update_session_Raise in Hup as ->
       end.
Qed.

(** X4: when [add], [remove], [remove_single] or [clear] raises another
    exception than the [NameError] of the session write, nothing has
    changed: the exception comes before the first assignment. *)
Theorem early_failure_is_atomic (m : mutation) self self' e :
  (∀ p q, m ≠ SetQuantity p q) →
  run m self = (Raise e, self') →
  e ≠ NameError "product" →
  self' = self.
Proof.
  intros Hm Hrun He.
  destruct m as [p pr q|p t|p t|p q|]; [..|by destruct (Hm p q)|];
    unfold_method.
  all: repeat (case_match; simplify_eq/=); try done.
  all: try by destruct self.
  all: match goal with
       | Hup : update_session ?c = (Raise _, _) |- _ =>
           assert ((update_session c).1 = Raise e) as Hup'
             by (by rewrite Hup);
           by apply update_session_Raise_NameError in Hup'
       end.
Qed.

(** ** Removing and changing quantities *)

Lemma count_of_delete (m : gmap string CartItem) k item :
  m !! k = Some item →
  count_of (delete k m) = count_of m - quantity item.
Proof.
  intros Hk. rewrite <-(insert_id m k item Hk) at 2.
  rewrite <-(insert_delete_eq m k item).
  rewrite count_of_insert_fresh by apply lookup_delete_eq. lia.
Qed.

Lemma size_delete_present (m : gmap string CartItem) k item :
  m !! k = Some item → size m = S (size (delete k m)).
Proof.
  intros Hk. rewrite <-!length_map_to_list.
  by rewrite <-(map_to_list_delete m k item Hk).
Qed.

Lemma contains_true_iff self p :
  contains self p = true
  ↔ ∃ k item, _items_dict self !! k = Some item ∧ py_eq p (product item) = true.
Proof.
  unfold contains, products, items. rewrite existsb_exists. split.
  - intros (x & Hx & Heq). apply list_elem_of_In in Hx.
    apply list_elem_of_fmap in Hx as (item & -> & Hitem).
    apply list_elem_of_fmap in Hitem as ([k item'] & -> & Hk).
    apply elem_of_map_to_list in Hk. by exists k, item'.
  - intros (k & item & Hk & Heq). exists (product item). split; [|done].
    apply list_elem_of_In, list_elem_of_fmap. exists item. split; [done|].
    apply list_elem_of_fmap. exists (k, item). split; [done|].
    by apply elem_of_map_to_list.
Qed.

Lemma remove_items p (t : pyval) self item :
  contains self p = true →
  _items_dict self !! format_key t (prod_id p) = Some item →
  _items_dict (remove p t self).2
  = delete (format_key t (prod_id p)) (_items_dict self).
Proof.
  intros Hin Hitem. unfold_method. rewrite Hin, Hitem. simpl.
  by rewrite update_session_items.
Qed.

(** X5: [remove] of a product in the cart, called with the type its key
    was made of, deletes that entry and no other: [unique_count] goes down
    by one and [count] by the quantity the entry had. *)
Theorem remove_present p (t : pyval) self item :
  contains self p = true →
  _items_dict self !! format_key t (prod_id p) = Some item →
  _items_dict (remove p t self).2
  = delete (format_key t (prod_id p)) (_items_dict self)
  ∧ unique_count self = S (unique_count (remove p t self).2)
  ∧ count (remove p t self).2 = count self - quantity item.
Proof.
  intros Hin Hitem. rewrite !count_count_of. unfold unique_count.
  rewrite (remove_items p t self item) by done.
  split_and!; [done|..].
  - by apply (size_delete_present _ _ item).
  - by apply count_of_delete.
Qed.

(** X6: when the product is found among the products of the cart but no
    entry sits under the key of the given type and the product's id,
    [remove] and [remove_single] raise [KeyError] and change nothing. *)
Theorem remove_without_key_raises p (t : pyval) self :
  contains self p = true →
  _items_dict self !! format_key t (prod_id p) = None →
  remove p t self
  = (Raise (KeyError (VStr (format_key t (prod_id p)))), self)
  ∧ remove_single p t self
    = (Raise (KeyError (VStr (format_key t (prod_id p)))), self).
Proof. intros Hin Hitem. unfold_method. by rewrite Hin, Hitem. Qed.

(** X7: after [remove], the cart does not contain the product any more,
    provided the entry removed was the only one whose product equals it. *)
Theorem remove_then_not_contains p (t : pyval) self item :
  contains self p = true →
  _items_dict self !! format_key t (prod_id p) = Some item →
  (∀ k item', _items_dict self !! k = Some item' →
              py_eq p (product item') = true → k = format_key t (prod_id p)) →
  contains (remove p t self).2 p = false.
Proof.
  intros Hin Hitem Honly.
  apply not_true_is_false. intros (k & item' & Hk & Heq)%contains_true_iff.
  rewrite (remove_items p t self item) in Hk by done.
  apply lookup_delete_Some in Hk as [Hne Hk].
  by destruct Hne; symmetry; eapply Honly.
Qed.

(** X8: [remove_single] of a product in the cart whose entry holds a
    quantity of 1 or more lowers [count] by exactly one; [unique_count]
    goes down by one when the quantity was 1 and stays otherwise. *)
Theorem remove_single_counts p (t : pyval) self item :
  contains self p = true →
  _items_dict self !! format_key t (prod_id p) = Some item →
  1 ≤ quantity item →
  count (remove_single p t self).2 = count self - 1
  ∧ unique_count self
    = ((if bool_decide (quantity item = 1%Z) then 1 else 0)
       + unique_count (remove_single p t self).2)%nat.
Proof.
  intros Hin Hitem Hq. rewrite !count_count_of. unfold unique_count.
  assert (_items_dict (remove_single p t self).2
          = if bool_decide (quantity item ≤ 1)
            then delete (format_key t (prod_id p)) (_items_dict self)
            else <[format_key t (prod_id p)
                   := with_quantity item (quantity item - 1)]>
                   (_items_dict self)) as ->.
  { unfold_method. rewrite Hin, Hitem.
    case_bool_decide; simpl; rewrite ?Hitem; simpl;
      by rewrite update_session_items. }
  repeat case_bool_decide; try lia.
  - rewrite (count_of_delete _ _ item) by done.
    rewrite (size_delete_present _ _ item Hitem). split; lia.
  - rewrite (count_of_insert_present _ _ item) by done.
    rewrite map_size_insert_Some by eauto. simpl. split; lia.
Qed.

(** X9: [set_quantity] of a product in the cart to a quantity [q] of 1 or
    more replaces the stored quantity: [count] changes by the difference,
    [unique_count] and the stored price stay. *)
Theorem set_quantity_positive_counts p (q : Z) self item :
  1 ≤ q →
  contains self p = true →
  _items_dict self
    !! format_key (prod_product_type p) (prod_product_source_id p) = Some item →
  count (set_quantity p q self).2 = count self - quantity item + q
  ∧ unique_count (set_quantity p q self).2 = unique_count self
  ∧ _items_dict (set_quantity p q self).2
      !! format_key (prod_product_type p) (prod_product_source_id p)
    = Some (with_quantity item q).
Proof.
  intros Hq Hin Hitem. rewrite !count_count_of. unfold unique_count.
  rewrite (set_quantity_positive p q self item) by done.
  rewrite (count_of_insert_present _ _ item) by done.
  rewrite map_size_insert_Some by eauto.
  by rewrite lookup_insert_eq.
Qed.

(** ** Counts of a cart that satisfies the invariant *)

Lemma count_of_lower_bound (m : gmap string CartItem) :
  (∀ k item, m !! k = Some item → 1 ≤ quantity item) →
  Z.of_nat (size m) ≤ count_of m.
Proof.
  induction m as [|k item m Hk IH] using map_ind; intros Hm.
  { unfold count_of. by rewrite map_to_list_empty. }
  rewrite count_of_insert_fresh, map_size_insert_None by done.
  assert (1 ≤ quantity item) by (apply (Hm k); by rewrite lookup_insert_eq).
  assert (Z.of_nat (size m) ≤ count_of m); [|lia].
  apply IH. intros k' item' Hk'. apply (Hm k').
  rewrite lookup_insert_ne; [done|]. intros <-. congruence.
Qed.

(** X10: in a cart that satisfies the invariant every entry counts for one
    at least: [unique_count] is at most [count], and the cart is empty
    exactly when [count] is 0. *)
Theorem invariant_counts self :
  cart_invariant self →
  Z.of_nat (unique_count self) ≤ count self
  ∧ (is_empty self = true ↔ count self = 0).
Proof.
  intros Hinv. rewrite count_count_of. unfold is_empty, unique_count.
  assert (Z.of_nat (size (_items_dict self)) ≤ count_of (_items_dict self))
    as Hle.
  { apply count_of_lower_bound. intros k item Hk. by apply (Hinv k). }
  split; [done|]. rewrite bool_decide_eq_true. split.
  - intros Hsize%map_size_empty_inv. rewrite Hsize.
    unfold count_of. by rewrite map_to_list_empty.
  - lia.
Qed.

(** ** What the constructor takes from the session *)

Lemma rebuild_entry_Return (acc acc' : gmap string CartItem) k v :
  rebuild_entry acc (k, v) = Return acc' →
  acc' = acc
  ∨ ∃ item d,
      acc' = <[k := item]> acc
      ∧ get_instance (d_product_module v) (d_product_source_id v)
        = Return (Some (product item))
      ∧ product_type item = d_product_type v
      ∧ quantity item = d_quantity v
      ∧ Decimal_of_str (d_price v) = Some d
      ∧ Decimal_of_str (Decimal_str d) = Some (price item).
Proof.
  unfold rebuild_entry, CartItem_init, Decimal_new. simpl.
  destruct (get_instance (d_product_module v) (d_product_source_id v))
    as [[found|]|e]; simpl; [|by intros [= <-]; left|done].
  destruct (Decimal_of_str (d_price v)) as [d|] eqn:Hd; simpl; [|done].
  destruct (Decimal_of_str (Decimal_str d)) as [d'|] eqn:Hd'; simpl; [|done].
  intros [= <-]. right. eexists _, d. by split_and!.
Qed.

(** X11: a cart that the constructor returns holds the session it was
    given, unchanged, and nothing that the session did not hold: every item
    sits under the key of a stored entry, with the type and the quantity of
    that entry, the product the lookup found for it and the price read from
    its text. In particular the cart is empty when the session has no
    entry under the cart's key. *)
Theorem construct_items_from_store (store : Session)
    (key : option string) cart :
  Cart_init store key = Return cart →
  session cart = store
  ∧ session_key cart = session_key_or_default key
  ∧ (data store !! session_key_or_default key = None →
     _items_dict cart = ∅)
  ∧ ∀ k item,
      _items_dict cart !! k = Some item →
      ∃ cart_representation v d,
        data store !! session_key_or_default key
          = Some cart_representation
        ∧ cart_representation !! k = Some v
        ∧ get_instance (d_product_module v) (d_product_source_id v)
          = Return (Some (product item))
        ∧ product_type item = d_product_type v
        ∧ quantity item = d_quantity v
        ∧ Decimal_of_str (d_price v) = Some d
        ∧ Decimal_of_str (Decimal_str d) = Some (price item).
Proof.
  unfold Cart_init.
  destruct (data store !! session_key_or_default key)
    as [cart_representation|] eqn:Hdata; simpl.
  2: { intros [= <-]. simpl. by split_and!. }
  destruct (for_each rebuild_entry (map_to_list cart_representation) ∅)
    as [items'|e] eqn:Hloop; simpl; [|done].
  intros [= <-]. simpl. split_and!; try done.
  revert Hloop.
  apply (for_each_Return_ind
           (λ acc : gmap string CartItem,
              ∀ k item, acc !! k = Some item →
                ∃ cart_representation0 v d,
                  Some cart_representation = Some cart_representation0
                  ∧ cart_representation0 !! k = Some v
                  ∧ get_instance (d_product_module v) (d_product_source_id v)
                    = Return (Some (product item))
                  ∧ product_type item = d_product_type v
                  ∧ quantity item = d_quantity v
                  ∧ Decimal_of_str (d_price v) = Some d
                  ∧ Decimal_of_str (Decimal_str d) = Some (price item))).
  { intros k item. by rewrite lookup_empty. }
  intros acc [k v] acc' Hkv%elem_of_map_to_list Hacc Hstep.
  apply rebuild_entry_Return in Hstep
    as [->|(item & d & -> & Hget & Ht & Hq & Hd & Hd')]; [done|].
  intros k' item' [[<- <-]|[_ Hk']]%lookup_insert_Some; [|by apply Hacc].
  exists cart_representation, v, d. by split_and!.
Qed.

(** ** More on serialization *)

Lemma for_each_serialize_item_Raise_item (l : list CartItem)
    (acc : gmap string ItemDict) e :
  for_each serialize_item l acc = Raise e →
  ∃ item, item ∈ l ∧ product_type item ≠ Resource.
Proof.
  revert acc. induction l as [|x l IH]; intros acc; [done|].
  cbn [for_each].
  destruct (decide (product_type x = Resource)) as [Hx|Hx].
  - rewrite serialize_item_Resource by done. simpl.
    intros (item & Hin & Ht)%IH. exists item. split; [|done].
    by apply elem_of_cons; right.
  - intros _. exists x. split; [by apply elem_of_cons; left|done].
Qed.

(** X12: [cart_serializable] raises exactly when the cart holds an item of
    another type than [Resource], and what it raises is the [NameError] of
    [to_dict]. *)
Theorem cart_serializable_raises_iff self e :
  cart_serializable self = Raise e
  ↔ e = NameError "product"
    ∧ ∃ k item, _items_dict self !! k = Some item
                ∧ product_type item ≠ Resource.
Proof.
  split.
  - intros Hser. split; [by eapply for_each_serialize_item_Raise|].
    apply for_each_serialize_item_Raise_item in Hser as (item & Hin & Ht).
    unfold items in Hin.
    apply list_elem_of_fmap in Hin as ([k item'] & -> & Hk).
    apply elem_of_map_to_list in Hk. by exists k, item'.
  - intros (-> & k & item & Hk & Ht). by eapply cart_serializable_other.
Qed.

(** X13: for a cart of [Resource] items that sit under their [unique_id],
    [items_serializable] lists one pair for every entry and no other: the
    key with what [to_dict] gives for the item. *)
Theorem items_serializable_pairs self :
  (∀ k item, _items_dict self !! k = Some item →
             k = unique_id item ∧ product_type item = Resource) →
  ∃ l,
    items_serializable self = Return l
    ∧ NoDup l.*1
    ∧ length l = unique_count self
    ∧ ∀ k d, (k, d) ∈ l
             ↔ ∃ item, _items_dict self !! k = Some item
                       ∧ to_dict item = Return d.
Proof.
  intros Hitems. eexists. unfold items_serializable.
  rewrite cart_serializable_Resource by done. simpl.
  split_and!; [done|apply NoDup_fst_map_to_list|..].
  - by rewrite length_map_to_list, map_size_fmap.
  - intros k d. rewrite elem_of_map_to_list, lookup_fmap. split.
    + destruct (_items_dict self !! k) as [item|] eqn:Hk; [|done].
      intros [= <-]. exists item. split; [done|].
      apply to_dict_Resource. by apply (Hitems k).
    + intros (item & Hk & Hd). destruct (Hitems k item Hk) as [_ Ht].
      rewrite Hk. simpl. rewrite to_dict_Resource in Hd by done.
      by injection Hd as <-.
Qed.

(** ** The module path of a product *)

Lemma rsplit1_None (sep : ascii) (s : string) :
  rsplit1 sep s = None ↔ sep ∉ chars s.
Proof.
  induction s as [|c s IH]; simpl.
  { split; [intros _; apply not_elem_of_nil|done]. }
  rewrite not_elem_of_cons, <-IH.
  destruct (rsplit1 sep s) as [[l r]|]; [by split; [|intros [_ ?]]|].
  destruct (Ascii.eqb_spec c sep) as [->|Hne]; split; try done.
  all: intuition congruence.
Qed.

Lemma rsplit1_app (sep : ascii) (m n : string) :
  sep ∉ chars n → rsplit1 sep (m +:+ String sep n) = Some (m, n).
Proof.
  intros Hn%rsplit1_None. induction m as [|c m IH]; simpl.
  - by rewrite Hn, Ascii.eqb_refl.
  - by rewrite IH.
Qed.

(** X14: the module path that [to_dict] writes is taken apart by the
    constructor into the module and the name of the product's class, when
    the class name holds no dot: a stored entry is looked up in the class of
    the product it was written for, with the product's id. *)
Theorem product_module_round_trip item d :
  to_dict item = Return d →
  "."%char ∉ chars (prod_class_name (product item)) →
  rsplit1 "." (d_product_module d)
  = Some (prod_class_module (product item), prod_class_name (product item))
  ∧ d_product_source_id d = prod_id (product item).
Proof.
  unfold to_dict.
  destruct (decide (product_type item = Resource)); simpl; [|done].
  intros [= <-] Hname. simpl. split; [|done].
  by apply rsplit1_app.
Qed.

(** ** Composite keys *)

Lemma pretty_N_char_not_dash (x : N) : pretty_N_char x ≠ "-"%char.
Proof. unfold pretty_N_char. by repeat case_match. Qed.

Lemma append_cons (c : ascii) (s t : string) :
  String c s +:+ t = String c (s +:+ t).
Proof. reflexivity. Qed.

Lemma append_empty_l (s : string) : "" +:+ s = s.
Proof. reflexivity. Qed.

Lemma append_empty_r (s : string) : s +:+ "" = s.
Proof. induction s as [|c s IH]; [done|]. by rewrite append_cons, IH. Qed.

Lemma append_snoc (t : string) (c : ascii) (s : string) :
  t +:+ String c s = (t +:+ String c "") +:+ s.
Proof.
  induction t as [|c' t IH]; [done|]. by rewrite !append_cons, IH.
Qed.

Lemma chars_app (s t : string) :
  chars (s +:+ t) = (chars s ++ chars t)%list.
Proof.
  induction s as [|c s IH]; [done|]. rewrite append_cons. simpl. by rewrite IH.
Qed.

(** The digits of a number come before what is already printed, and there
    is one at least for a number above 0. *)
Lemma pretty_N_go_digits (x : N) (s : string) :
  ∃ t, pretty_N_go x s = t +:+ s
       ∧ ("-"%char ∉ chars t)
       ∧ ((0 < x)%N → t ≠ "").
Proof.
  revert s. induction (N.lt_wf_0 x) as [x _ IH]; intros s.
  destruct (decide (0 < x)%N) as [Hx|Hx].
  - rewrite pretty_N_go_step by done.
    destruct (IH (N.div x 10)) with
      (s := String (pretty_N_char (N.modulo x 10)) s) as (t & -> & Ht & _).
    { by apply N.div_lt. }
    exists (t +:+ String (pretty_N_char (N.modulo x 10)) "").
    split_and!.
    + apply append_snoc.
    + rewrite chars_app. simpl. apply not_elem_of_app. split; [done|].
      apply not_elem_of_cons. split; [|apply not_elem_of_nil].
      intros Heq. by eapply pretty_N_char_not_dash.
    + intros _. by destruct t.
  - assert (x = 0%N) as -> by lia. rewrite pretty_N_go_0.
    exists "". split_and!; [done|apply not_elem_of_nil|lia].
Qed.

Lemma pretty_N_digits (x : N) :
  ("-"%char ∉ chars (pretty x)) ∧ pretty x ≠ "".
Proof.
  unfold pretty, pretty_N. case_decide as Hx.
  - split; [|done]. simpl.
    apply not_elem_of_cons. split; [done|apply not_elem_of_nil].
  - destruct (pretty_N_go_digits x "") as (t & -> & Ht & Hne).
    rewrite append_empty_r. split; [done|]. apply Hne. lia.
Qed.

(** Two texts split at their first dash. *)
Lemma split_at_first_dash (s1 s2 t1 t2 : string) :
  "-"%char ∉ chars s1 → "-"%char ∉ chars s2 →
  s1 +:+ String "-" t1 = s2 +:+ String "-" t2 →
  s1 = s2 ∧ t1 = t2.
Proof.
  revert s2. induction s1 as [|c s1 IH]; intros [|c' s2];
    rewrite ?append_cons; simpl; intros H1 H2 Heq.
  - by injection Heq as ->.
  - injection Heq as <- _. by apply not_elem_of_cons in H2 as [? _].
  - injection Heq as -> _. by apply not_elem_of_cons in H1 as [? _].
  - injection Heq as -> Heq.
    apply not_elem_of_cons in H1 as [_ H1].
    apply not_elem_of_cons in H2 as [_ H2].
    destruct (IH s2 H1 H2 Heq) as [-> ->]. done.
Qed.

Lemma pretty_Z_key (z : Z) :
  ∃ (sign : bool) (digits : string),
    pretty z = (if sign then String "-" digits else digits)
    ∧ ("-"%char ∉ chars digits) ∧ digits ≠ ""
    ∧ (sign = true ↔ z < 0).
Proof.
  destruct z as [|p|p].
  - exists false, "0". split_and!; try done.
    simpl. apply not_elem_of_cons. split; [done|apply not_elem_of_nil].
  - exists false, (pretty (Npos p)).
    destruct (pretty_N_digits (Npos p)).
    split_and!; try done; split; first [done|lia].
  - exists true, (pretty (Npos p)).
    destruct (pretty_N_digits (Npos p)).
    split_and!; try done; split; first [done|lia].
Qed.

(** X15: products with integer types and ids never share a composite key:
    the key determines the type and the id. *)
Theorem format_key_int_injective (t1 i1 t2 i2 : Z) :
  format_key (VInt t1) (VInt i1) = format_key (VInt t2) (VInt i2) →
  t1 = t2 ∧ i1 = i2.
Proof.
  unfold format_key. simpl. intros Heq.
  assert (pretty t1 = pretty t2 ∧ pretty i1 = pretty i2) as [Ht Hi].
  { destruct (pretty_Z_key t1) as (sg1 & d1 & E1 & Hd1 & Hne1 & _).
    destruct (pretty_Z_key t2) as (sg2 & d2 & E2 & Hd2 & Hne2 & _).
    rewrite E1, E2 in Heq |- *.
    destruct sg1, sg2; rewrite ?append_cons, ?append_empty_l in Heq.
    - injection Heq as Heq.
      by destruct (split_at_first_dash _ _ _ _ Hd1 Hd2 Heq) as [-> ?].
    - destruct d2 as [|c d2]; [done|]. rewrite append_cons in Heq.
      injection Heq as <- _. by apply not_elem_of_cons in Hd2 as [? _].
    - destruct d1 as [|c d1]; [done|]. rewrite append_cons in Heq.
      injection Heq as -> _. by apply not_elem_of_cons in Hd1 as [? _].
    - by destruct (split_at_first_dash _ _ _ _ Hd1 Hd2 Heq) as [-> ?]. }
  split; by apply (inj pretty).
Qed.

(** ** Sequences of calls *)

Lemma add_new_items p (pr0 : pyprice) (q : Z) self found d :
  1 ≤ q →
  contains self p = false →
  get_instance (prod_module_for_product_type p) (prod_product_source_id p)
    = Return (Some found) →
  Decimal_of_str (str_price pr0) = Some d →
  _items_dict (add p (Some pr0) q self).2
  = <[format_key (prod_product_type p) (prod_product_source_id p)
      := {| name := if decide (prod_product_type p = Resource)
                    then prod_title found else prod_name found;
            product := found; product_type := prod_product_type p;
            quantity := q; price := d |}]> (_items_dict self).
Proof.
  intros Hq Hin Hfound Hd. unfold_method.
  rewrite bool_decide_eq_false_2 by lia. simpl.
  rewrite Hin, Hfound. simpl.
  unfold CartItem_init, Decimal_new. rewrite Hd. simpl.
  by rewrite update_session_items.
Qed.

Lemma add_present_items p (pr : option pyprice) (q : Z) self item :
  1 ≤ q →
  contains self p = true →
  _items_dict self
    !! format_key (prod_product_type p) (prod_product_source_id p) = Some item →
  _items_dict (add p pr q self).2
  = <[format_key (prod_product_type p) (prod_product_source_id p)
      := with_quantity item (quantity item + q)]> (_items_dict self).
Proof.
  intros Hq Hin Hitem. unfold_method.
  rewrite bool_decide_eq_false_2 by lia. simpl.
  rewrite Hin, Hitem. simpl. by rewrite update_session_items.
Qed.

(** X16: [add] of a product that is not in the cart and that the lookup
    does not find, with a quantity of 1 or more and a price, stores
    nothing, and yet writes the session: the call is the session write
    alone. *)
Theorem add_of_unknown_product p (pr0 : pyprice) (q : Z) self :
  1 ≤ q →
  contains self p = false →
  get_instance (prod_module_for_product_type p) (prod_product_source_id p)
    = Return None →
  add p (Some pr0) q self = update_session self
  ∧ _items_dict (add p (Some pr0) q self).2 = _items_dict self.
Proof.
  intros Hq Hin Hnone.
  assert (add p (Some pr0) q self = update_session self) as ->.
  { unfold_method. rewrite bool_decide_eq_false_2 by lia. simpl.
    by rewrite Hin, Hnone. }
  split; [done|apply update_session_items].
Qed.

(** X17: [add] of a new product and then [remove] of it, with the type it
    was added under, leaves the items as they were before the two calls,
    when the product's [id] is its [product_source_id] and the product
    equals the object the lookup found for it. *)
Theorem add_then_remove p (pr0 : pyprice) (q : Z) self found d :
  1 ≤ q →
  contains self p = false →
  _items_dict self
    !! format_key (prod_product_type p) (prod_product_source_id p) = None →
  get_instance (prod_module_for_product_type p) (prod_product_source_id p)
    = Return (Some found) →
  Decimal_of_str (str_price pr0) = Some d →
  py_eq p found = true →
  prod_id p = prod_product_source_id p →
  _items_dict (remove p (prod_product_type p) (add p (Some pr0) q self).2).2
  = _items_dict self.
Proof.
  intros Hq Hin Hfree Hfound Hd Heq Hid.
  pose proof (add_new_items p pr0 q self found d Hq Hin Hfound Hd) as Hadd.
  erewrite remove_items.
  - rewrite Hadd, Hid. rewrite delete_insert_eq. by apply delete_id.
  - apply contains_true_iff. eexists _, _. rewrite Hadd.
    split; [apply lookup_insert_eq|done].
  - rewrite Hadd, Hid. apply lookup_insert_eq.
Qed.

(** X18: two [add]s of the same new product add up, when the product
    equals the object the lookup found for it (so that the second call
    finds it in the cart): the items are those after one [add] of the two
    quantities together, with the price of the first call, whatever price
    the second one gives. *)
Theorem add_twice p (pr0 : pyprice) (pr' : option pyprice) (q1 q2 : Z)
    self found d :
  1 ≤ q1 → 1 ≤ q2 →
  contains self p = false →
  get_instance (prod_module_for_product_type p) (prod_product_source_id p)
    = Return (Some found) →
  Decimal_of_str (str_price pr0) = Some d →
  py_eq p found = true →
  _items_dict (add p pr' q2 (add p (Some pr0) q1 self).2).2
  = _items_dict (add p (Some pr0) (q1 + q2) self).2.
Proof.
  intros Hq1 Hq2 Hin Hfound Hd Heq.
  pose proof (add_new_items p pr0 q1 self found d Hq1 Hin Hfound Hd) as Hadd.
  rewrite (add_new_items p pr0 (q1 + q2) self found d) by (done || lia).
  erewrite add_present_items; [|done| |by rewrite Hadd; apply lookup_insert_eq].
  - rewrite Hadd. by rewrite insert_insert_eq.
  - apply contains_true_iff. eexists _, _. rewrite Hadd.
    split; [apply lookup_insert_eq|done].
Qed.

End Properties.

(** * Totals *)

Section TotalProperties.
Context `{DecimalArithmetic}.

Lemma for_each_pynum_add_Decimal (l : list Decimal) (d : Decimal) n :
  for_each pynum_add l (NDecimal d) = Return n → ∃ d', n = NDecimal d'.
Proof.
  revert d. induction l as [|x l IH]; intros d; cbn [for_each].
  { intros [= <-]. by eexists. }
  simpl. destruct (Decimal_add d x) as [d'|e]; simpl; [apply IH|done].
Qed.

Lemma comprehension_Raise {A B : Type} (f : A → outcome B) (l : list A) x e :
  x ∈ l → f x = Raise e → ∃ e', comprehension f l = Raise e'.
Proof.
  intros Hin Hx. induction l as [|y l IH]; [by apply elem_of_nil in Hin|].
  simpl. destruct (f y) as [b|e'] eqn:Hy; simpl; [|by eexists].
  apply elem_of_cons in Hin as [->|Hin]; [congruence|].
  destruct (IH Hin) as [e' ->]. by eexists.
Qed.

(** X19: [total] of an empty cart is the int 0 that [sum] starts from; a
    total that a cart with items returns is a [Decimal]; for one item it is
    the subtotal of that item added to 0, or the exception of that
    multiplication or addition; and when the subtotal of an item raises,
    [total] raises. *)
Theorem total_int_or_Decimal (self : Cart) :
  (is_empty self = true → total self = Return (NInt 0))
  ∧ (∀ n, is_empty self = false → total self = Return n →
          ∃ d, n = NDecimal d)
  ∧ (∀ k item, _items_dict self = {[k := item]} →
               total self
               = (s ← Decimal_mul_int (price item) (quantity item);
                  d ← Decimal_radd_int 0 s;
                  mret (NDecimal d)))
  ∧ (∀ k item e, _items_dict self !! k = Some item →
                 subtotal item = Raise e →
                 ∃ e', total self = Raise e').
Proof.
  unfold is_empty, unique_count, total, items. split_and!.
  - intros Hsize%bool_decide_eq_true%map_size_empty_inv.
    by rewrite Hsize, map_to_list_empty.
  - intros n Hsize%bool_decide_eq_false.
    destruct (map_to_list (_items_dict self)) as [|[k item] l] eqn:Hl.
    { apply map_to_list_empty_iff in Hl. rewrite Hl in Hsize.
      by rewrite map_size_empty in Hsize. }
    cbn [fmap list_fmap comprehension snd].
    unfold mbind, outcome_bind, mret, outcome_ret.
    destruct (subtotal item) as [s|e]; [|done].
    destruct (comprehension subtotal _) as [ss|e]; [|done].
    cbn [for_each pynum_add]. unfold mbind, outcome_bind, mret, outcome_ret.
    destruct (Decimal_radd_int 0 s) as [d|e]; [|done].
    apply for_each_pynum_add_Decimal.
  - intros k item ->. rewrite map_to_list_singleton. simpl.
    unfold subtotal.
    destruct (Decimal_mul_int (price item) (quantity item)) as [s|e];
      simpl; [|done].
    by destruct (Decimal_radd_int 0 s).
  - intros k item e Hk Hraise.
    destruct (comprehension_Raise subtotal (map_to_list (_items_dict self)).*2
                item e) as [e' ->]; [|done|by eexists].
    apply list_elem_of_fmap. exists (k, item). split; [done|].
    by apply elem_of_map_to_list.
Qed.

End TotalProperties.

(** * Runs in the small shop *)

Section Runs.
Local Existing Instance demo.

Lemma demo_cart_items : _items_dict demo_cart = {["1-7" := demo_book_item 2]}.
Proof. vm_compute. reflexivity. Qed.

Lemma demo_cart_contains_book : contains demo_cart demo_book = true.
Proof. vm_compute. reflexivity. Qed.

(** C1: in a cart holding two of the book, [set_quantity(book, 0)] raises
    [KeyError] on [del self._items_dict[product.pk]]; the entry is still
    there, with quantity 0. *)
Theorem set_quantity_zero_keeps_entry :
  contains demo_cart demo_book = true
  ∧ _items_dict demo_cart !! "1-7" = Some (demo_book_item 2)
  ∧ (set_quantity demo_book 0 demo_cart).1 = Raise (KeyError (VInt 7))
  ∧ _items_dict (set_quantity demo_book 0 demo_cart).2 !! "1-7"
    = Some (demo_book_item 0).
Proof. split_and!; vm_compute; reflexivity. Qed.

(** C3: a cart with an item of another type than [Resource] has no
    serialized form: [cart_serializable] raises [NameError], and so does
    the [add] that put the item in. *)
Theorem cart_with_pen_does_not_serialize :
  add demo_pen (Some (PText "1.50")) 1 demo_empty_cart
  = (Raise (NameError "product"), demo_pen_cart)
  ∧ unique_count demo_pen_cart = 1%nat
  ∧ cart_serializable demo_pen_cart = Raise (NameError "product").
Proof. split_and!; vm_compute; reflexivity. Qed.

(** C4: the cart holding two of the book satisfies the invariant, and after
    [set_quantity(book, 0)] it does not: an item with quantity 0 is
    stored. *)
Theorem set_quantity_zero_breaks_invariant :
  cart_invariant demo_cart
  ∧ ¬ cart_invariant (set_quantity demo_book 0 demo_cart).2.
Proof.
  split.
  - intros k item. rewrite demo_cart_items.
    intros [<- <-]%lookup_singleton_Some. split; [reflexivity|done].
  - intros Hinv.
    destruct (Hinv "1-7" (demo_book_item 0)) as [_ Hq];
      [vm_compute; reflexivity|].
    simpl in Hq. lia.
Qed.

(** C2: a stored cart with the book and with an entry whose product id is
    not in the catalogue any more. The lookup raises [DoesNotExist] for
    that id, nothing catches it and the constructor raises: the
    [if item:] meant to skip the entry is not reached. Without that entry
    the same store gives the cart with the book. *)
Theorem construct_raises_on_missing_product :
  demo_representation !! "1-99" = Some demo_stored_ghost
  ∧ get_instance (d_product_module demo_stored_ghost)
                 (d_product_source_id demo_stored_ghost)
    = Raise (CollaboratorError "DoesNotExist")
  ∧ Cart_init demo_store None = Raise (CollaboratorError "DoesNotExist")
  ∧ Cart_init demo_book_store None = Return demo_restored_cart.
Proof. split_and!; vm_compute; reflexivity. Qed.

(** C7: the object passed to [add] names the book by type and source id and
    is not equal to the book the cart stores. A first [add] of 2 gives the
    cart with two of the book; a second [add] of 1 does not find the
    product among the stored ones and overwrites the entry: [count] goes
    from 2 to 1 and the price passed replaces the stored one; without a
    price the second call raises the missing-price error. *)
Theorem add_of_wrapper_overwrites :
  add demo_wrapper (Some (PText "9.99")) 2 demo_empty_cart
  = (Return (), demo_cart)
  ∧ count demo_cart = 2
  ∧ contains demo_cart demo_wrapper = false
  ∧ (add demo_wrapper (Some (PText "5.00")) 1 demo_cart).1 = Return ()
  ∧ count (add demo_wrapper (Some (PText "5.00")) 1 demo_cart).2 = 1
  ∧ unique_count (add demo_wrapper (Some (PText "5.00")) 1 demo_cart).2
    = unique_count demo_cart
  ∧ price <$> _items_dict
                (add demo_wrapper (Some (PText "5.00")) 1 demo_cart).2 !! "1-7"
    = Some "5.00"
  ∧ (add demo_wrapper None 1 demo_cart).1
    = Raise (ValueError "Missing price when adding to cart").
Proof. split_and!; vm_compute; reflexivity. Qed.

(** C6: [add(book, price="abc", quantity=1)] on the empty cart passes both
    checks on the arguments and raises all the same: [Decimal] refuses the
    price. *)
Lemma malformed_price_raises_unvalidated :
  ¬ (raises (Add demo_book (Some (PText "abc")) 1) demo_empty_cart
     ↔ fails_validation (Add demo_book (Some (PText "abc")) 1) demo_empty_cart
       = true).
Proof.
  intros [Hraises _].
  assert (raises (Add demo_book (Some (PText "abc")) 1) demo_empty_cart)
    as Hr by (exists InvalidOperation; vm_compute; reflexivity).
  apply Hraises in Hr. vm_compute in Hr. discriminate.
Qed.

(** The scenario of the specification, without the totals: two of a
    product, one more without a price, one taken back, then all removed. *)
Example scenario_counts :
  let cart1 := (add demo_book (Some (PText "9.99")) 2 demo_empty_cart).2 in
  let cart2 := (add demo_book None 1 cart1).2 in
  let cart3 := (remove_single demo_book demo_Resource cart2).2 in
  let cart4 := (remove demo_book demo_Resource cart3).2 in
  count cart1 = 2 ∧ count cart2 = 3 ∧ count cart3 = 2 ∧ is_empty cart4 = true.
Proof. vm_compute. split_and!; reflexivity. Qed.

Example rsplit1_last_dot :
  rsplit1 "." "shop.models.Book" = Some ("shop.models", "Book")
  ∧ rsplit1 "." "Book" = None.
Proof. split; reflexivity. Qed.

Example format_key_of_ints : format_key (VInt 1) (VInt 7) = "1-7".
Proof. reflexivity. Qed.

Lemma remove_single_checks_before_decrement_witness :
  quantity <$> _items_dict (remove_single demo_book demo_Resource demo_cart).2
                 !! "1-7"
  = Some 1.
Proof.
  destruct (remove_single_checks_before_decrement
              demo_book demo_Resource demo_cart (demo_book_item 2))
    as (_ & _ & Htwo).
  - vm_compute. reflexivity.
  - vm_compute. reflexivity.
  - apply Htwo. reflexivity.
Defined.

Lemma add_counts_witness :
  (count (add demo_book None 1 demo_cart).2 = count demo_cart + 1
   ∧ unique_count (add demo_book None 1 demo_cart).2 = unique_count demo_cart)
  ∧ (count demo_cart = count demo_empty_cart + 2
     ∧ unique_count demo_cart = S (unique_count demo_empty_cart)).
Proof.
  split.
  - destruct (add_counts demo_book None 1 demo_cart) as [Hpresent _]; [lia|].
    destruct (Hpresent (demo_book_item 2)) as (Hcount & Hunique & _);
      [vm_compute; reflexivity..|].
    by split.
  - destruct (add_counts demo_book (Some (PText "9.99")) 2 demo_empty_cart)
      as [_ Habsent]; [lia|].
    destruct (Habsent (PText "9.99") demo_book "9.99") as (Hcount & Hunique & _);
      [vm_compute; reflexivity..|].
    by split.
Defined.

Lemma mutation_writes_session_witness : session_in_sync demo_cart.
Proof.
  apply (mutation_writes_session
           (Add demo_book (Some (PText "9.99")) 2) demo_empty_cart demo_cart).
  - reflexivity.
  - vm_compute. reflexivity.
Defined.

Lemma validation_failure_is_atomic_witness :
  ∃ msg, run (Add demo_pen None 1) demo_cart = (Raise (ValueError msg), demo_cart).
Proof.
  apply (validation_failure_is_atomic (Add demo_pen None 1) demo_cart).
  vm_compute. reflexivity.
Defined.

Lemma absent_product_is_noop_witness :
  remove demo_pen demo_Stationery demo_cart = (Return (), demo_cart)
  ∧ remove_single demo_pen demo_Stationery demo_cart = (Return (), demo_cart)
  ∧ (set_quantity demo_pen 5 demo_cart).2 = demo_cart.
Proof.
  apply (absent_product_is_noop demo_pen demo_Stationery 5 demo_cart).
  vm_compute. reflexivity.
Defined.

(** ** Runs for the further properties *)

Lemma demo_lookup_honest (dotted : string) (pk : pyval) found :
  get_instance dotted pk = Return (Some found) →
  str (prod_id found) = str pk.
Proof.
  unfold get_instance, unpack2.
  destruct (rsplit1 "." dotted) as [[module package]|]; simpl; [|done].
  unfold demo_objects_get.
  repeat case_bool_decide; simplify_eq/=; by intros [= <-].
Qed.

Lemma demo_cart_shape k item :
  _items_dict demo_cart !! k = Some item →
  item = demo_book_item 2 ∧ k = "1-7".
Proof.
  rewrite demo_cart_items. by intros [<- <-]%lookup_singleton_Some.
Qed.

Lemma demo_cart_invariant : cart_invariant demo_cart.
Proof.
  intros k item [-> ->]%demo_cart_shape. split; [reflexivity|done].
Qed.

Lemma demo_store_restored :
  Cart_init demo_book_store None = Return demo_restored_cart.
Proof. vm_compute. reflexivity. Qed.

Lemma raising_mutation_leaves_session_witness :
  session (set_quantity demo_book 0 demo_cart).2 = session demo_cart.
Proof.
  apply (raising_mutation_leaves_session
           (SetQuantity demo_book 0) demo_cart _ (KeyError (VInt 7))).
  vm_compute. reflexivity.
Defined.

Lemma early_failure_is_atomic_witness :
  (remove demo_book demo_Stationery demo_cart).2 = demo_cart.
Proof.
  apply (early_failure_is_atomic
           (Remove demo_book demo_Stationery) demo_cart _
           (KeyError (VStr "2-7"))).
  - intros p q. discriminate.
  - vm_compute. reflexivity.
  - discriminate.
Defined.

Lemma remove_present_witness :
  _items_dict (remove demo_book demo_Resource demo_cart).2
  = delete "1-7" (_items_dict demo_cart)
  ∧ unique_count demo_cart
    = S (unique_count (remove demo_book demo_Resource demo_cart).2)
  ∧ count (remove demo_book demo_Resource demo_cart).2 = count demo_cart - 2.
Proof.
  apply (remove_present demo_book demo_Resource demo_cart (demo_book_item 2));
    vm_compute; reflexivity.
Defined.

Lemma remove_without_key_raises_witness :
  remove demo_book demo_Stationery demo_cart
  = (Raise (KeyError (VStr "2-7")), demo_cart)
  ∧ remove_single demo_book demo_Stationery demo_cart
    = (Raise (KeyError (VStr "2-7")), demo_cart).
Proof.
  apply (remove_without_key_raises demo_book demo_Stationery demo_cart);
    vm_compute; reflexivity.
Defined.

Lemma remove_then_not_contains_witness :
  contains (remove demo_book demo_Resource demo_cart).2 demo_book = false.
Proof.
  apply (remove_then_not_contains
           demo_book demo_Resource demo_cart (demo_book_item 2)).
  - vm_compute. reflexivity.
  - vm_compute. reflexivity.
  - intros k item [-> ->]%demo_cart_shape _. reflexivity.
Defined.

Lemma remove_single_counts_witness :
  count (remove_single demo_book demo_Resource demo_cart).2 = count demo_cart - 1
  ∧ unique_count demo_cart
    = (0 + unique_count (remove_single demo_book demo_Resource demo_cart).2)%nat.
Proof.
  apply (remove_single_counts
           demo_book demo_Resource demo_cart (demo_book_item 2)).
  - vm_compute. reflexivity.
  - vm_compute. reflexivity.
  - simpl. lia.
Defined.

Lemma set_quantity_positive_counts_witness :
  count (set_quantity demo_book 5 demo_cart).2 = count demo_cart - 2 + 5
  ∧ unique_count (set_quantity demo_book 5 demo_cart).2 = unique_count demo_cart
  ∧ _items_dict (set_quantity demo_book 5 demo_cart).2 !! "1-7"
    = Some (demo_book_item 5).
Proof.
  apply (set_quantity_positive_counts
           demo_book 5 demo_cart (demo_book_item 2)).
  - lia.
  - vm_compute. reflexivity.
  - vm_compute. reflexivity.
Defined.

Lemma invariant_counts_witness :
  Z.of_nat (unique_count demo_cart) ≤ count demo_cart
  ∧ (is_empty demo_cart = true ↔ count demo_cart = 0).
Proof. apply (invariant_counts demo_cart). exact demo_cart_invariant. Defined.

Lemma construct_items_from_store_witness :
  session demo_restored_cart = demo_book_store
  ∧ session_key demo_restored_cart = session_key_or_default None
  ∧ (data demo_book_store !! session_key_or_default None = None →
     _items_dict demo_restored_cart = ∅)
  ∧ ∀ k item,
      _items_dict demo_restored_cart !! k = Some item →
      ∃ cart_representation v d,
        data demo_book_store !! session_key_or_default None
          = Some cart_representation
        ∧ cart_representation !! k = Some v
        ∧ get_instance (d_product_module v) (d_product_source_id v)
          = Return (Some (product item))
        ∧ product_type item = d_product_type v
        ∧ quantity item = d_quantity v
        ∧ Decimal_of_str (d_price v) = Some d
        ∧ Decimal_of_str (Decimal_str d) = Some (price item).
Proof.
  apply (construct_items_from_store demo_book_store None demo_restored_cart).
  exact demo_store_restored.
Defined.

Lemma items_serializable_pairs_witness :
  ∃ l,
    items_serializable demo_cart = Return l
    ∧ NoDup l.*1
    ∧ length l = unique_count demo_cart
    ∧ ∀ k d, (k, d) ∈ l
             ↔ ∃ item, _items_dict demo_cart !! k = Some item
                       ∧ to_dict item = Return d.
Proof.
  apply (items_serializable_pairs demo_cart).
  intros k item [-> ->]%demo_cart_shape. split; reflexivity.
Defined.

Lemma product_module_round_trip_witness :
  rsplit1 "." (d_product_module demo_stored_book) = Some ("shop.models", "Book")
  ∧ d_product_source_id demo_stored_book = VInt 7.
Proof.
  apply (product_module_round_trip (demo_book_item 2) demo_stored_book).
  - vm_compute. reflexivity.
  - simpl. intros Hin.
    repeat (apply elem_of_cons in Hin as [Hin|Hin]; [discriminate|]).
    by apply elem_of_nil in Hin.
Defined.

Lemma format_key_int_injective_witness : 1 = 1 ∧ 7 = 7.
Proof. apply (format_key_int_injective 1 7 1 7). reflexivity. Defined.

Lemma add_then_remove_witness :
  _items_dict (remove demo_book demo_Resource
                 (add demo_book (Some (PText "9.99")) 2 demo_empty_cart).2).2
  = _items_dict demo_empty_cart.
Proof.
  apply (add_then_remove demo_book (PText "9.99") 2 demo_empty_cart
           demo_book "9.99"); try (vm_compute; reflexivity).
  lia.
Defined.

Lemma add_twice_witness :
  _items_dict (add demo_book None 3
                 (add demo_book (Some (PText "9.99")) 2 demo_empty_cart).2).2
  = _items_dict (add demo_book (Some (PText "9.99")) (2 + 3) demo_empty_cart).2.
Proof.
  apply (add_twice demo_book (PText "9.99") None 2 3 demo_empty_cart
           demo_book "9.99"); try (vm_compute; reflexivity); lia.
Defined.

Lemma construct_propagates_lookup_error_witness :
  ∃ e, Cart_init demo_legacy_store None = Raise e.
Proof.
  apply (construct_propagates_lookup_error
           demo_legacy_store None {["1-1" := demo_stored_legacy]}
           "1-1" demo_stored_legacy (CollaboratorError "ImportError")).
  - vm_compute. reflexivity.
  - vm_compute. reflexivity.
  - vm_compute. reflexivity.
Defined.

Lemma construct_establishes_invariant_witness :
  cart_invariant demo_restored_cart.
Proof.
  apply (construct_establishes_invariant
           demo_book_store None demo_restored_cart).
  - exact demo_lookup_honest.
  - intros cart_representation k v Hdata Hk.
    assert (cart_representation = <["1-7" := demo_stored_book]> ∅) as ->.
    { vm_compute in Hdata. by injection Hdata as <-. }
    apply lookup_insert_Some in Hk as [[<- <-]|[_ Hk]]; [by split|].
    by rewrite lookup_empty in Hk.
  - exact demo_store_restored.
Defined.

Lemma mutation_keeps_invariant_witness :
  cart_invariant (run (Add demo_book None 1) demo_cart).2.
Proof.
  apply (mutation_keeps_invariant (Add demo_book None 1) demo_cart).
  - exact demo_lookup_honest.
  - exact I.
  - exact demo_cart_invariant.
Defined.

Lemma serialize_then_construct_witness :
  ∃ r,
    cart_serializable demo_cart = Return r
    ∧ (data (session demo_cart) !! session_key_or_default None = Some r →
       ∃ cart,
         Cart_init (session demo_cart) None = Return cart
         ∧ ∀ k, quantity <$> _items_dict cart !! k
                = quantity <$> _items_dict demo_cart !! k
                ∧ price <$> _items_dict cart !! k
                  = price <$> _items_dict demo_cart !! k).
Proof.
  apply (serialize_then_construct demo_cart (session demo_cart) None).
  - intros k item [-> ->]%demo_cart_shape. split; reflexivity.
  - intros k item [-> ->]%demo_cart_shape. split; [|reflexivity].
    exists demo_book. vm_compute. reflexivity.
Defined.

Lemma set_quantity_zero_KeyError_witness :
  set_quantity demo_book 0 demo_cart
  = (Raise (KeyError (VInt 7)),
     {| _items_dict := <["1-7" := demo_book_item 0]> (_items_dict demo_cart);
        session := session demo_cart;
        session_key := session_key demo_cart |}).
Proof.
  apply (set_quantity_zero_KeyError demo_book demo_cart (demo_book_item 2)).
  - vm_compute. reflexivity.
  - vm_compute. reflexivity.
  - intros k. discriminate.
Defined.

End Runs.

Section LenientRuns.
Local Existing Instance lenient.

Lemma add_of_unknown_product_witness :
  add demo_ghost (Some (PText "5.00")) 1 lenient_empty_cart
  = update_session lenient_empty_cart
  ∧ _items_dict (add demo_ghost (Some (PText "5.00")) 1 lenient_empty_cart).2
    = _items_dict lenient_empty_cart.
Proof.
  apply (add_of_unknown_product demo_ghost (PText "5.00") 1 lenient_empty_cart).
  - lia.
  - vm_compute. reflexivity.
  - vm_compute. reflexivity.
Defined.

End LenientRuns.
